(** * remAInd: the question lifecycle of the quiz services, verified

    A shallow embedding of the service classes of [core/services]
    ([question_display.py], [answer_processing.py], [question_generation.py])
    together with the part of Python's [str], [re] and [difflib] they call.

    Conventions.
    - A Python [str] is a list of Unicode code points ([list N]); [len] is
      [length].  String literals of the source are written as UTF-8 Rocq
      strings and decoded with [py].
    - Python [int] fields are [Z]; list lengths and indices into lists are
      [nat].
    - Python [float] is IEEE-754 binary64, taken from [SpecFloat].
    - ORM rows are records; tables are kept in insertion order. *)

From Stdlib Require Import ZArith NArith List Bool Lia.
From Stdlib Require Import Strings.String Strings.Ascii.
From Stdlib Require Import Floats.SpecFloat.
From stdpp Require Import base option list gmap sorting.

Local Open Scope nat_scope.

(* ===================================================================== *)
(** * Python strings *)
(* ===================================================================== *)

Abbreviation pystr := (list N) (only parsing).

Module Utf8.

(** Payload of a continuation byte [10xxxxxx]. *)
Definition cont (c : ascii) : N := N.land (N_of_ascii c) 63.

(** Decoder used to write the source's literals.  The lead byte selects
    the length of the sequence; a truncated sequence decodes the bytes
    that are there. *)
Fixpoint decode (s : string) : pystr :=
  match s with
  | EmptyString => []
  | String c0 r0 =>
    let b0 := N_of_ascii c0 in
    if (b0 <? 192)%N then b0 :: decode r0
    else match r0 with
    | EmptyString => [b0]
    | String c1 r1 =>
      if (b0 <? 224)%N then
        (N.land b0 31 * 64 + cont c1)%N :: decode r1
      else match r1 with
      | EmptyString => [b0]
      | String c2 r2 =>
        if (b0 <? 240)%N then
          (N.land b0 15 * 4096 + cont c1 * 64 + cont c2)%N :: decode r2
        else match r2 with
        | EmptyString => [b0]
        | String c3 r3 =>
          (N.land b0 7 * 262144 + cont c1 * 4096 + cont c2 * 64 + cont c3)%N
            :: decode r3
        end
      end
    end
  end.

End Utf8.

Abbreviation py s := (Utf8.decode s%string) (only parsing).

Module Str.

(** [str.isspace] for one code point: CPython's [_PyUnicode_IsWhitespace]. *)
Definition isspace (c : N) : bool :=
  ((9 <=? c) && (c <=? 13) || (28 <=? c) && (c <=? 32)
   || (c =? 133) || (c =? 160) || (c =? 5760)
   || (8192 <=? c) && (c <=? 8202)
   || (c =? 8232) || (c =? 8233) || (c =? 8239) || (c =? 8287)
   || (c =? 12288))%N.

Fixpoint lstrip (s : pystr) : pystr :=
  match s with
  | c :: s' => if isspace c then lstrip s' else s
  | [] => []
  end.

Definition rstrip (s : pystr) : pystr := rev (lstrip (rev s)).

(** [s.strip()] *)
Definition strip (s : pystr) : pystr := rstrip (lstrip s).

(** [s.startswith(p)] *)
Fixpoint startswith (p s : pystr) : bool :=
  match p, s with
  | [], _ => true
  | x :: p', y :: s' => (x =? y)%N && startswith p' s'
  | _ :: _, [] => false
  end.

(** [s == t] *)
Definition eqb (s t : pystr) : bool := bool_decide (s = t).

(** [c in s] for a one-character [c]. *)
Definition contains (c : N) (s : pystr) : bool := existsb (N.eqb c) s.

(** [s.split(sep)] for a non-empty [sep]: left to right, occurrences do
    not overlap.  [skip] counts the characters of a separator that was
    just recognised and is still to be passed over; [cur] is the part
    being read, reversed. *)
Fixpoint split_go (sep : pystr) (skip : nat) (cur : pystr) (s : pystr)
  : list pystr :=
  match s with
  | [] => [rev cur]
  | c :: s' =>
    match skip with
    | S k => split_go sep k cur s'
    | O =>
      if startswith sep s
      then rev cur :: split_go sep (length sep - 1) [] s'
      else split_go sep 0 (c :: cur) s'
    end
  end.

Definition split (sep s : pystr) : list pystr := split_go sep 0 [] s.

(** [s.replace(old, new)] for a non-empty [old]. *)
Fixpoint replace_go (old new : pystr) (skip : nat) (s : pystr) : pystr :=
  match s with
  | [] => []
  | c :: s' =>
    match skip with
    | S k => replace_go old new k s'
    | O =>
      if startswith old s
      then new ++ replace_go old new (length old - 1) s'
      else c :: replace_go old new 0 s'
    end
  end.

Definition replace (old new s : pystr) : pystr := replace_go old new 0 s.

End Str.

(* ===================================================================== *)
(** * question_display.py: QuestionTextCleaner *)
(* ===================================================================== *)

Module QuestionTextCleaner.

(** The character class [[問題0-9:\.]] of the pattern. *)
Definition in_label_class (c : N) : bool :=
  ((c =? 21839) || (c =? 38988) || (48 <=? c) && (c <=? 57)
   || (c =? 58) || (c =? 46))%N.

(** [re.sub(r'^[問題0-9:\.]+', '', text)]: the pattern is anchored at the
    start, so the only match is the leading run of class characters. *)
Fixpoint sub_leading_label (text : pystr) : pystr :=
  match text with
  | c :: text' => if in_label_class c then sub_leading_label text' else text
  | [] => []
  end.

Definition qmark : N := 65311.   (* '？' *)
Definition period : N := 12290.  (* '。' *)

(** [xs[0]] of a list produced by [split], which is never empty. *)
Definition first_part (parts : list pystr) : pystr := hd [] parts.

Definition clean_question_text (text : pystr) : pystr :=
  let cleaned_text := Str.strip (sub_leading_label text) in
  if Str.contains qmark cleaned_text then
    Str.strip (first_part (Str.split [qmark] cleaned_text)) ++ [qmark]
  else if Str.contains period cleaned_text then
    Str.strip (first_part (Str.split [period] cleaned_text)) ++ [qmark]
  else cleaned_text.

(** ** The normaliser as the specification words it

    Second definition, following the specification of
    [TextNormalizer.normalize]: after the leading label is removed, cut at
    the first occurrence of either terminator, whichever comes first. *)
Fixpoint cut_at_first_terminator (s : pystr) : option pystr :=
  match s with
  | [] => None
  | c :: s' =>
    if ((c =? qmark) || (c =? period))%N then Some []
    else option_map (cons c) (cut_at_first_terminator s')
  end.

Definition normalize_spec (raw : pystr) : pystr :=
  let trimmed := Str.strip (sub_leading_label raw) in
  match cut_at_first_terminator trimmed with
  | Some stem => stem ++ [qmark]
  | None => trimmed
  end.

(** The text before the first occurrence of [c]. *)
Fixpoint before (c : N) (s : pystr) : pystr :=
  match s with
  | [] => []
  | x :: s' => if (x =? c)%N then [] else x :: before c s'
  end.

End QuestionTextCleaner.


(* ===================================================================== *)
(** * Python floats and exceptions *)
(* ===================================================================== *)

Module Float.

(** IEEE-754 binary64. *)
Definition prec : Z := 53.
Definition emax : Z := 1024.

(** [float(n)] for an [int]: the nearest double. *)
Definition of_int (n : Z) : spec_float := binary_normalize prec emax n 0 false.

Definition mul : spec_float -> spec_float -> spec_float := SFmul prec emax.
Definition div : spec_float -> spec_float -> spec_float := SFdiv prec emax.

(** [x > y] *)
Definition gtb (x y : spec_float) : bool := SFltb y x.

(** [a / b] on two [int]s with [b != 0].  Both operands are converted and
    divided, which is Python's correctly rounded quotient as long as the
    operands are below 2^53 in magnitude (database integers are). *)
Definition truediv (a b : Z) : spec_float := div (of_int a) (of_int b).

(** The literals [0.4], [1.0], [2.0] and [80.0]. *)
Definition lit_0_4 : spec_float := S754_finite false 7205759403792794 (-54).
Definition lit_1_0 : spec_float := S754_finite false 4503599627370496 (-52).
Definition lit_2_0 : spec_float := S754_finite false 4503599627370496 (-51).
Definition lit_80_0 : spec_float := S754_finite false 5629499534213120 (-46).

End Float.

Inductive exn :=
| AttributeError   (* attribute access on [None] *)
| DoesNotExist     (* [Model.objects.get] found no row *)
| ValueError (message : pystr).

Inductive result (A : Type) :=
| Ok (x : A)
| Raise (e : exn).
Arguments Ok {A} x.
Arguments Raise {A} e.

#[global] Instance result_ret : MRet result := fun A x => Ok x.
#[global] Instance result_bind : MBind result := fun A B k r =>
  match r with
  | Ok x => k x
  | Raise e => Raise e
  end.

(* ===================================================================== *)
(** * models.py *)
(* ===================================================================== *)

Module Question.
Record t := mk {
  id : Z;
  user : Z;                       (* primary key of the owner *)
  theme : pystr;
  question_text : pystr;
  correct_option : option pystr;
  is_correct : option bool;
  is_correct_first : option bool;
  explanation : option pystr;
  question_number : option Z;
  difficulty : option pystr
}.

Definition set_is_correct_first (v : option bool) (q : t) : t :=
  mk (id q) (user q) (theme q) (question_text q) (correct_option q)
     (is_correct q) v (explanation q) (question_number q) (difficulty q).
Definition set_is_correct (v : option bool) (q : t) : t :=
  mk (id q) (user q) (theme q) (question_text q) (correct_option q)
     v (is_correct_first q) (explanation q) (question_number q) (difficulty q).
Definition set_correct_option (v : option pystr) (q : t) : t :=
  mk (id q) (user q) (theme q) (question_text q) v
     (is_correct q) (is_correct_first q) (explanation q) (question_number q)
     (difficulty q).
Definition set_explanation (v : option pystr) (q : t) : t :=
  mk (id q) (user q) (theme q) (question_text q) (correct_option q)
     (is_correct q) (is_correct_first q) v (question_number q) (difficulty q).
End Question.

Module CustomUser.
Record t := mk {
  id : Z;
  is_premium : bool;
  correct_count : Z;
  generate_count : Z;
  accuracy : spec_float;
  not_answered_count : Z;
  last_generated_date : option Z;   (* a date, as a day number *)
  daily_generated_count : Z
}.

Definition set_correct_count (v : Z) (u : t) : t :=
  mk (id u) (is_premium u) v (generate_count u) (accuracy u)
     (not_answered_count u) (last_generated_date u) (daily_generated_count u).
Definition set_generate_count (v : Z) (u : t) : t :=
  mk (id u) (is_premium u) (correct_count u) v (accuracy u)
     (not_answered_count u) (last_generated_date u) (daily_generated_count u).
Definition set_accuracy (v : spec_float) (u : t) : t :=
  mk (id u) (is_premium u) (correct_count u) (generate_count u) v
     (not_answered_count u) (last_generated_date u) (daily_generated_count u).
Definition set_last_generated_date (v : option Z) (u : t) : t :=
  mk (id u) (is_premium u) (correct_count u) (generate_count u) (accuracy u)
     (not_answered_count u) v (daily_generated_count u).
Definition set_daily_generated_count (v : Z) (u : t) : t :=
  mk (id u) (is_premium u) (correct_count u) (generate_count u) (accuracy u)
     (not_answered_count u) (last_generated_date u) v.
End CustomUser.

(** One entry of [request.session['all_questions']]. *)
Module SessionEntry.
Record t := mk {
  question_id : Z;
  question_text : pystr;
  theme : pystr;
  question_number : Z
}.
End SessionEntry.

(** One call of [openai.ChatCompletion.create]: the two messages sent. *)
Record ChatRequest := {
  system_content : pystr;
  user_content : pystr
}.

(** The completion endpoint: from the requests made so far and the current
    request to [response.choices[0].message.content]. *)
Definition CompletionSource := list ChatRequest -> ChatRequest -> pystr.

(** What lives outside the Python objects of a request: the two tables (rows
    in insertion order), the session, and the log of completion requests. *)
Module World.
Record t := mk {
  users : gmap Z CustomUser.t;
  questions : list Question.t;
  next_question_id : Z;
  session_all_questions : option (list SessionEntry.t);
  session_modified : bool;
  llm_log : list ChatRequest
}.

(** A fresh database and session. *)
Definition empty : t := mk ∅ [] 1 None false [].

Definition set_users v (w : t) : t :=
  mk v (questions w) (next_question_id w) (session_all_questions w)
     (session_modified w) (llm_log w).
Definition set_questions v (w : t) : t :=
  mk (users w) v (next_question_id w) (session_all_questions w)
     (session_modified w) (llm_log w).
Definition set_next_question_id v (w : t) : t :=
  mk (users w) (questions w) v (session_all_questions w)
     (session_modified w) (llm_log w).
Definition set_session_all_questions v (w : t) : t :=
  mk (users w) (questions w) (next_question_id w) v
     (session_modified w) (llm_log w).
Definition set_session_modified v (w : t) : t :=
  mk (users w) (questions w) (next_question_id w) (session_all_questions w)
     v (llm_log w).
Definition set_llm_log v (w : t) : t :=
  mk (users w) (questions w) (next_question_id w) (session_all_questions w)
     (session_modified w) v.
End World.

Module Orm.

(** [Question.objects.get(id=question_id)] *)
Definition get_question (question_id : Z) (w : World.t) : result Question.t :=
  match List.find (fun q => (Question.id q =? question_id)%Z) (World.questions w) with
  | Some q => Ok q
  | None => Raise DoesNotExist
  end.

(** [question.save()] on a row that exists: the row with this primary key
    is rewritten. *)
Definition save_question (q : Question.t) (w : World.t) : World.t :=
  World.set_questions
    (List.map (fun r => if (Question.id r =? Question.id q)%Z then q else r)
              (World.questions w)) w.

(** [user.save()] *)
Definition save_user (u : CustomUser.t) (w : World.t) : World.t :=
  World.set_users (<[CustomUser.id u := u]> (World.users w)) w.

(** [Question.objects.create(user=.., theme=.., question_text=..,
    question_number=.., difficulty=..)]: the other columns take their
    defaults; the key is the next one of the sequence. *)
Definition create_question (user : Z) (theme question_text : pystr)
    (question_number : Z) (difficulty : option pystr) (w : World.t)
  : Question.t * World.t :=
  let q := Question.mk (World.next_question_id w) user theme question_text
             None None None None (Some question_number) difficulty in
  (q, World.set_next_question_id (World.next_question_id w + 1)%Z
        (World.set_questions (World.questions w ++ [q]) w)).

(** [Question.objects.filter(user=user, theme=theme)[:20]] under the
    model's [ordering = ['-created_at']]: newest first. *)
Definition filter_user_theme_20 (user : Z) (theme : pystr) (w : World.t)
  : list Question.t :=
  take 20 (List.filter
             (fun q => (Question.user q =? user)%Z
                       && Str.eqb (Question.theme q) theme)
             (rev (World.questions w))).

(** One blocking call of the completion endpoint. *)
Definition chat_completion (source : CompletionSource) (req : ChatRequest)
    (w : World.t) : pystr * World.t :=
  (source (World.llm_log w) req,
   World.set_llm_log (World.llm_log w ++ [req]) w).

End Orm.

(* ===================================================================== *)
(** * answer_processing.py *)
(* ===================================================================== *)

Module AnswerValidationService.

Definition lparen : N := 40.
Definition rparen : N := 41.
Definition newline : N := 10.

(** [re.sub(r'正解:|[()]', '', line)]: at each position the first
    alternative is tried before the character class. *)
Fixpoint sub_answer_label_go (skip : nat) (line : pystr) : pystr :=
  match line with
  | [] => []
  | c :: line' =>
    match skip with
    | S k => sub_answer_label_go k line'
    | O =>
      if Str.startswith (py "正解:") line then sub_answer_label_go 2 line'
      else if ((c =? lparen) || (c =? rparen))%N
           then sub_answer_label_go 0 line'
           else c :: sub_answer_label_go 0 line'
    end
  end.

Definition sub_answer_label (line : pystr) : pystr :=
  sub_answer_label_go 0 line.

(** The body of the [for line in explanation.split('\n')] loop, on the
    pair [(correct_option, explanation_text)]. *)
Definition scan_line (acc : option pystr * pystr) (line : pystr)
  : option pystr * pystr :=
  if Str.startswith (py "正解:") line then
    (Some (Str.strip (sub_answer_label line)), snd acc)
  else if Str.startswith (py "解説:") line then
    (fst acc, Str.strip (Str.replace (py "解説:") [] line))
  else acc.

(** Lines 44-56: from the content of the grading response to
    [(correct_option, explanation_text, explanation)]. *)
Definition extract (content : pystr) : option pystr * pystr * pystr :=
  let explanation := Str.strip content in
  let '(correct_option, explanation_text) :=
    fold_left scan_line (Str.split [newline] explanation) (None, []) in
  (correct_option, explanation_text, explanation).

Definition grading_request (question_text user_answer : pystr) : ChatRequest :=
  {| system_content := py "
        正解は必ず(A)〜(D)の中から1つ選んでください。
        以下の形式で出力してください：
        正解:(A/B/C/D)
        解説:解説内容

        【重要】解説の文字数制限：
        - 解説は必ず180文字以上200文字以内で出力してください。
        - この制限を厳守してください。200文字を超える場合は、内容を簡潔にまとめてください。
        - 文字数を数えて確認してから出力してください。
        ";
     user_content := py "
        問題: "
    ++ question_text
    ++ py "
        ユーザーの回答: "
    ++ user_answer
    ++ py "
        
        この回答が正しいかどうかを判定し、解説を提供してください。
        " |}.

Definition check_answer_with_ai (source : CompletionSource)
    (question_text user_answer : pystr) (w : World.t)
  : (option pystr * pystr * pystr) * World.t :=
  let '(content, w') :=
    Orm.chat_completion source (grading_request question_text user_answer) w in
  (extract content, w').

Section IsCorrect.
(** [str.upper], Python's Unicode upper-casing, is taken as given. *)
Variable upper : pystr -> pystr.

(** [user_answer.upper() == correct_option.upper()]; [correct_option]
    is whatever [check_answer_with_ai] returned, [None] included, and
    [None] has no method [upper]. *)
Definition is_correct (user_answer : pystr) (correct_option : option pystr)
  : result bool :=
  let lhs := upper user_answer in
  match correct_option with
  | Some option_text => Ok (Str.eqb lhs (upper option_text))
  | None => Raise AttributeError
  end.
End IsCorrect.

(** Upper-casing on ASCII letters, where it agrees with [str.upper]. *)
Definition ascii_upper (s : pystr) : pystr :=
  List.map (fun c => if ((97 <=? c) && (c <=? 122))%N then (c - 32)%N else c) s.

End AnswerValidationService.

Module QuestionUpdateService.

Definition update_question (question_id : Z) (is_correct : bool)
    (correct_option : option pystr) (explanation_text : pystr) (w : World.t)
  : result (bool * World.t) :=
  question ← Orm.get_question question_id w;
  let '(question, is_first) :=
    match Question.is_correct_first question with
    | None => (Question.set_is_correct_first (Some is_correct) question, true)
    | Some _ => (Question.set_is_correct (Some is_correct) question, false)
    end in
  let question := Question.set_correct_option correct_option question in
  let question := Question.set_explanation (Some explanation_text) question in
  Ok (is_first, Orm.save_question question w).

End QuestionUpdateService.

Module UserStatisticsService.

Definition update_statistics (user : CustomUser.t) (is_first is_correct : bool)
    (w : World.t) : CustomUser.t * World.t :=
  let user :=
    if is_first && is_correct
    then CustomUser.set_correct_count (CustomUser.correct_count user + 1)%Z user
    else user in
  let user :=
    if (0 <? CustomUser.generate_count user)%Z
    then CustomUser.set_accuracy
           (Float.mul (Float.truediv (CustomUser.correct_count user)
                                     (CustomUser.generate_count user))
                      (Float.of_int 100)) user
    else user in
  (user, Orm.save_user user w).

End UserStatisticsService.

Module ExplanationContextBuilder.

(** The dictionary returned by [build_context], one field per key. *)
Record context := {
  question : pystr;
  keyword : pystr;
  question_number : Z;
  total_questions : Z;
  has_next : bool;
  next_number : Z;
  is_correct : option bool;
  question_id : Z;
  explanation : option pystr;
  correct_option : option pystr;
  is_retry : pystr;
  user_answer : pystr;
  show_back_link : bool;
  show_user_answer : bool;
  show_images : bool;
  show_next_button : bool
}.

(** Truth value of a [str]. *)
Definition truthy (s : pystr) : bool := negb (Str.eqb s []).

Definition build_context (q : Question.t) (keyword : pystr)
    (question_number : Z) (is_retry : pystr) : context :=
  let is_correct :=
    match Question.is_correct_first q with
    | Some v => Some v
    | None => Question.is_correct q
    end in
  {| question := Question.question_text q;
     keyword := keyword;
     question_number := question_number;
     total_questions := 1;
     has_next := false;
     next_number := (question_number + 1)%Z;
     is_correct := is_correct;
     question_id := Question.id q;
     explanation := Question.explanation q;
     correct_option := Question.correct_option q;
     is_retry := if truthy is_retry then py "True" else [];
     user_answer := [];
     show_back_link := false;
     show_user_answer := false;
     show_images := false;
     show_next_button := false |}.

End ExplanationContextBuilder.

(* ===================================================================== *)
(** * Grading a question several times *)
(* ===================================================================== *)

(** The arguments of one call of [QuestionUpdateService.update_question]
    besides the question. *)
Record grading := {
  graded_correct : bool;
  graded_option : option pystr;
  graded_explanation : pystr
}.

(** The calls of [gs] made one after the other on question [question_id];
    the flags returned, in order, and the final state. *)
Fixpoint grade_all (question_id : Z) (gs : list grading) (w : World.t)
  : result (list bool * World.t) :=
  match gs with
  | [] => Ok ([], w)
  | g :: gs' =>
    r ← QuestionUpdateService.update_question question_id (graded_correct g)
          (graded_option g) (graded_explanation g) w;
    rs ← grade_all question_id gs' r.2;
    Ok (r.1 :: rs.1, rs.2)
  end.

(* ===================================================================== *)
(** * difflib.SequenceMatcher(None, a, b).ratio()

    The part of Python's [difflib] that [QuestionSimilarityChecker] runs:
    no junk predicate ([isjunk=None]) and [autojunk=True].  A match
    [(i, j, k)] says [a[i:i+k] == b[j:j+k]]. *)
(* ===================================================================== *)

Module difflib.

Definition Match : Type := nat * nat * nat.

Definition size (x : Match) : nat := x.2.

(** ** [__chain_b] *)

(** [for i, elt in enumerate(b): b2j.setdefault(elt, []).append(i)] *)
Fixpoint index_elements (i : nat) (b : pystr) (b2j : gmap N (list nat))
  : gmap N (list nat) :=
  match b with
  | [] => b2j
  | elt :: b' =>
    index_elements (S i) b' (<[elt := default [] (b2j !! elt) ++ [i]]> b2j)
  end.

(** With [n >= 200] the elements that occur more than [n // 100 + 1] times
    are "popular" and are deleted from [b2j]. *)
Definition chain_b (b : pystr) : gmap N (list nat) :=
  let b2j := index_elements 0 b ∅ in
  let n := length b in
  if 200 <=? n then
    let ntest := n / 100 + 1 in
    filter (fun entry : N * list nat => length entry.2 <= ntest) b2j
  else b2j.

(** [bjunk] is the empty set: no element is junk. *)
Definition isbjunk (elt : N) : bool := false.

Section SequenceMatcher.
Variables a b : pystr.

(** [a[i] == b[j]], for indices inside the two sequences. *)
Definition same_at (i j : nat) : bool :=
  match a !! i, b !! j with
  | Some x, Some y => (x =? y)%N
  | _, _ => false
  end.

(** ** [find_longest_match] *)

(** [j2len.get(j-1, 0)]: the keys are indices of [b], so [-1] is never
    one. *)
Definition j2len_get_pred (j2len : gmap nat nat) (j : nat) : nat :=
  match j with
  | O => 0
  | S j' => default 0 (j2len !! j')
  end.

(** The loop [for j in b2j.get(a[i], nothing)], on the rest [js] of the
    index list.  [k <= i + 1] and [k <= j + 1] always hold, and [i-k+1] is
    written [i + 1 - k]. *)
Fixpoint scan_row (blo bhi i : nat) (j2len : gmap nat nat) (js : list nat)
    (newj2len : gmap nat nat) (best : Match) : gmap nat nat * Match :=
  match js with
  | [] => (newj2len, best)
  | j :: js' =>
    if j <? blo then scan_row blo bhi i j2len js' newj2len best
    else if bhi <=? j then (newj2len, best)
    else
      let k := j2len_get_pred j2len j + 1 in
      let newj2len := <[j := k]> newj2len in
      let best := if size best <? k then (i + 1 - k, j + 1 - k, k) else best in
      scan_row blo bhi i j2len js' newj2len best
  end.

(** The loop [for i in range(alo, ahi)], on the rest [rows] of the range. *)
Fixpoint scan_rows (b2j : gmap N (list nat)) (blo bhi : nat) (rows : list nat)
    (j2len : gmap nat nat) (best : Match) : Match :=
  match rows with
  | [] => best
  | i :: rows' =>
    let js := match a !! i with
              | Some elt => default [] (b2j !! elt)
              | None => []
              end in
    let '(newj2len, best) := scan_row blo bhi i j2len js ∅ best in
    scan_rows b2j blo bhi rows' newj2len best
  end.

(** The first and third [while] loops: the match grows to the left while
    the elements before it are equal and are junk ([junk = true]) or are
    not junk ([junk = false]). *)
Fixpoint extend_left (junk : bool) (alo blo besti bestj bestsize : nat)
  : Match :=
  match besti, bestj with
  | S i', S j' =>
    if (alo <? besti) && (blo <? bestj)
       && match b !! j' with
          | Some elt => Bool.eqb (isbjunk elt) junk
          | None => false
          end
       && same_at i' j'
    then extend_left junk alo blo i' j' (S bestsize)
    else (besti, bestj, bestsize)
  | _, _ => (besti, bestj, bestsize)
  end.

(** The second and fourth [while] loops.  [room] is [ahi - (besti +
    bestsize)]: the guard [besti+bestsize < ahi] holds exactly when it is
    not zero. *)
Fixpoint extend_right (junk : bool) (bhi besti bestj : nat) (room : nat)
    (bestsize : nat) : nat :=
  match room with
  | O => bestsize
  | S room' =>
    if (bestj + bestsize <? bhi)
       && match b !! (bestj + bestsize) with
          | Some elt => Bool.eqb (isbjunk elt) junk
          | None => false
          end
       && same_at (besti + bestsize) (bestj + bestsize)
    then extend_right junk bhi besti bestj room' (S bestsize)
    else bestsize
  end.

Definition find_longest_match (b2j : gmap N (list nat)) (alo ahi blo bhi : nat)
  : Match :=
  let '(besti, bestj, bestsize) :=
    scan_rows b2j blo bhi (seq alo (ahi - alo)) ∅ (alo, blo, 0) in
  let '(besti, bestj, bestsize) :=
    extend_left false alo blo besti bestj bestsize in
  let bestsize :=
    extend_right false bhi besti bestj (ahi - (besti + bestsize)) bestsize in
  let '(besti, bestj, bestsize) :=
    extend_left true alo blo besti bestj bestsize in
  let bestsize :=
    extend_right true bhi besti bestj (ahi - (besti + bestsize)) bestsize in
  (besti, bestj, bestsize).

(** ** [get_matching_blocks] *)

(** The [while queue] loop.  [queue] is used as a stack, kept here with its
    top first.  The loop is bounded by [fuel]; [None] is "out of fuel". *)
Fixpoint match_queue (b2j : gmap N (list nat)) (fuel : nat)
    (queue : list (nat * nat * nat * nat)) (matching_blocks : list Match)
  : option (list Match) :=
  match queue with
  | [] => Some matching_blocks
  | (alo, ahi, blo, bhi) :: queue =>
    match fuel with
    | O => None
    | S fuel' =>
      let '(i, j, k) := find_longest_match b2j alo ahi blo bhi in
      if k =? 0 then match_queue b2j fuel' queue matching_blocks
      else
        let matching_blocks := matching_blocks ++ [(i, j, k)] in
        let queue :=
          if (alo <? i) && (blo <? j) then (alo, i, blo, j) :: queue
          else queue in
        let queue :=
          if (i + k <? ahi) && (j + k <? bhi) then (i + k, ahi, j + k, bhi) :: queue
          else queue in
        match_queue b2j fuel' queue matching_blocks
    end
  end.

(** Order of tuples, for [matching_blocks.sort()]. *)
Definition Match_le (x y : Match) : Prop :=
  x.1.1 < y.1.1 \/
  (x.1.1 = y.1.1 /\ (x.1.2 < y.1.2 \/ (x.1.2 = y.1.2 /\ x.2 <= y.2))).

#[global] Instance Match_le_dec : RelDecision Match_le.
Proof. intros x y. unfold Match_le. apply _. Defined.

(** The loop that collapses adjacent blocks, on the state
    [(i1, j1, k1, non_adjacent)]. *)
Definition collapse_step (st : Match * list Match) (x : Match)
  : Match * list Match :=
  let '((i1, j1, k1), non_adjacent) := st in
  let '(i2, j2, k2) := x in
  if (i1 + k1 =? i2) && (j1 + k1 =? j2) then ((i1, j1, k1 + k2), non_adjacent)
  else ((i2, j2, k2),
        if k1 =? 0 then non_adjacent else non_adjacent ++ [(i1, j1, k1)]).

Definition collapse (matching_blocks : list Match) : list Match :=
  let '((i1, j1, k1), non_adjacent) :=
    fold_left collapse_step matching_blocks ((0, 0, 0), []) in
  if k1 =? 0 then non_adjacent else non_adjacent ++ [(i1, j1, k1)].

(** Each pass of the loop that finds a match removes at least one element
    of [a] from the ranges still to be looked at, so [2 * len(a) + 1]
    passes are enough ([match_queue_terminates]). *)
Definition get_matching_blocks : list Match :=
  let la := length a in
  let lb := length b in
  match match_queue (chain_b b) (2 * la + 1) [(0, la, 0, lb)] [] with
  | Some matching_blocks =>
    collapse (merge_sort Match_le matching_blocks) ++ [(la, lb, 0)]
  | None => []
  end.

(** [sum(triple[-1] for triple in self.get_matching_blocks())] *)
Definition matches : nat := sum_list (size <$> get_matching_blocks).

End SequenceMatcher.

(** [2.0 * matches / length], or [1.0] when [length] is zero. *)
Definition _calculate_ratio (matches length : nat) : spec_float :=
  if length =? 0 then Float.lit_1_0
  else Float.div (Float.mul Float.lit_2_0 (Float.of_int (Z.of_nat matches)))
                 (Float.of_int (Z.of_nat length)).

Definition ratio (a b : pystr) : spec_float :=
  _calculate_ratio (matches a b) (length a + length b).

End difflib.

(* ===================================================================== *)
(** * question_generation.py *)
(* ===================================================================== *)

Module QuestionSimilarityChecker.

(** The loop of [is_similar], together with the number of prior questions
    it compared [new_question] with before returning. *)
Fixpoint is_similar_counting (new_question : pystr)
    (past_questions : list Question.t) (threshold : spec_float) : bool * nat :=
  match past_questions with
  | [] => (false, 0)
  | past_question :: past_questions' =>
    let similarity :=
      difflib.ratio new_question (Question.question_text past_question) in
    if Float.gtb similarity threshold then (true, 1)
    else
      let '(found, compared) :=
        is_similar_counting new_question past_questions' threshold in
      (found, S compared)
  end.

Definition is_similar (new_question : pystr) (past_questions : list Question.t)
    (threshold : spec_float) : bool :=
  (is_similar_counting new_question past_questions threshold).1.

(** [threshold=0.4] *)
Definition default_threshold : spec_float := Float.lit_0_4.

End QuestionSimilarityChecker.

Module PremiumLimitChecker.

Definition DAILY_LIMIT : Z := 10.

Definition limit_message : pystr := py "1日に生成できる問題数の上限に達しました。".

(** [today] is [timezone.now().date()]: the settings have [USE_TZ = True]
    and [TIME_ZONE = 'UTC']. *)
Definition can_generate (today : Z) (user : CustomUser.t) (w : World.t)
  : (bool * option pystr) * CustomUser.t * World.t :=
  if CustomUser.is_premium user then ((true, None), user, w)
  else
    let '(user, w) :=
      if negb (bool_decide (CustomUser.last_generated_date user = Some today))
      then
        let user := CustomUser.set_last_generated_date (Some today) user in
        let user := CustomUser.set_daily_generated_count 0 user in
        (user, Orm.save_user user w)
      else (user, w) in
    if (DAILY_LIMIT <=? CustomUser.daily_generated_count user)%Z
    then ((false, Some limit_message), user, w)
    else ((true, None), user, w).

Definition update_daily_count (user : CustomUser.t) (question_count : Z)
    (w : World.t) : CustomUser.t * World.t :=
  if negb (CustomUser.is_premium user) then
    let user :=
      CustomUser.set_daily_generated_count
        (CustomUser.daily_generated_count user + question_count)%Z user in
    (user, Orm.save_user user w)
  else (user, w).

End PremiumLimitChecker.

Module FileProcessor.

(** An uploaded file, with what the decoding libraries report on it:
    [Image.open(f).size] and the [extract_text()] of each page of
    [PyPDF2.PdfReader(f)]. *)
Record UploadedFile := {
  content_type : pystr;
  image_size : Z * Z;
  pdf_pages : list pystr
}.

Fixpoint uint_digits (d : Decimal.uint) : pystr :=
  match d with
  | Decimal.Nil => []
  | Decimal.D0 d => 48%N :: uint_digits d
  | Decimal.D1 d => 49%N :: uint_digits d
  | Decimal.D2 d => 50%N :: uint_digits d
  | Decimal.D3 d => 51%N :: uint_digits d
  | Decimal.D4 d => 52%N :: uint_digits d
  | Decimal.D5 d => 53%N :: uint_digits d
  | Decimal.D6 d => 54%N :: uint_digits d
  | Decimal.D7 d => 55%N :: uint_digits d
  | Decimal.D8 d => 56%N :: uint_digits d
  | Decimal.D9 d => 57%N :: uint_digits d
  end.

(** [str(n)] for an [int]. *)
Definition str_of_int (n : Z) : pystr :=
  match Z.to_int n with
  | Decimal.Pos d => uint_digits d
  | Decimal.Neg d => 45%N :: uint_digits d
  end.

Definition extract_text_from_image (uploaded_file : UploadedFile) : pystr :=
  let '(width, height) := image_size uploaded_file in
  py "画像のサイズは" ++ str_of_int width ++ py "x" ++ str_of_int height
    ++ py "です。".

Definition extract_text_from_pdf (uploaded_file : UploadedFile) : pystr :=
  fold_left (fun extracted_text page => extracted_text ++ page)
            (pdf_pages uploaded_file) [].

Definition process_file (uploaded_file : UploadedFile) : result pystr :=
  let file_type := content_type uploaded_file in
  if Str.startswith (py "image/") file_type then
    Ok (extract_text_from_image uploaded_file)
  else if Str.eqb file_type (py "application/pdf") then
    Ok (extract_text_from_pdf uploaded_file)
  else Raise (ValueError (py "サポートされていないファイルタイプ: " ++ file_type)).

End FileProcessor.

Module PromptBuilder.

Definition DIFFICULTY_LEVEL_MAP : gmap (list N) (list N) :=
  list_to_map [ (py "basic", py "初級レベル");
                (py "intermediate", py "中級レベル");
                (py "advanced", py "上級レベル");
                (py "super_advanced", py "超上級レベル");
                (py "master", py "最上級レベル") ].

(** Returns [(prompt, system_content, theme)]. *)
Definition build_file_prompt (extracted_text : pystr) : pystr * pystr * pystr :=
  let theme := take 10 extracted_text in
  let prompt := py "次のテキストを読み、実用的な4択問題を10個作成してください。:"
      ++ extracted_text
      ++ py "正解はまだ表示しないでください。" in
  let system_content := py "問題の選択肢は (A)選択肢の内容 (B)選択肢の内容 (C)選択肢の内容 (D)選択肢の内容 という形で出力してください。" in
  (prompt, system_content, theme).

(** Returns [(prompt, system_content)]. *)
Definition build_text_prompt (theme difficulty : pystr) : pystr * pystr :=
  let level := default (py "上級") (DIFFICULTY_LEVEL_MAP !! difficulty) in
  let prompt := theme
      ++ py "に関する、実用的な4択問題を10個作成してください。
        作成する問題の難易度は"
      ++ level
      ++ py "です。
        しっかりとこのレベルの問題を作成してください。
        選択肢は(A)~(D)の4つです。
        正解はまだ表示しないでください。" in
  let system_content := py "問題はきちんと1~10の順番で出力してください。" in
  (prompt, system_content).

End PromptBuilder.

Module QuestionGenerator.

Definition newline : N := 10.

(** Truth value of [past_questions]: [None] and the empty query set are
    false. *)
Definition truthy (past_questions : option (list Question.t)) : bool :=
  match past_questions with
  | Some (_ :: _) => true
  | _ => false
  end.

(** The body of [for question_data in questions_data] up to the [append]:
    [false] where the source says [continue]. *)
Definition accepts (past_questions : option (list Question.t))
    (question_data : pystr) : bool :=
  let lines := Str.split [newline] question_data in
  let non_empty_lines :=
    List.filter (fun line => negb (Str.eqb (Str.strip line) [])) lines in
  if length non_empty_lines <? 5 then false
  else
    let main_question := Str.strip (hd [] lines) in
    if Str.eqb main_question [] || (length main_question <? 10) then false
    else if truthy past_questions
            && QuestionSimilarityChecker.is_similar main_question
                 (default [] past_questions)
                 QuestionSimilarityChecker.default_threshold
    then false
    else true.

(** The [for] loop over the blocks of one response; it is left as soon as
    [max_questions] blocks are collected. *)
Fixpoint scan_blocks (past_questions : option (list Question.t))
    (max_questions : nat) (questions_data : list pystr)
    (valid_questions : list pystr) : list pystr :=
  match questions_data with
  | [] => valid_questions
  | question_data :: questions_data' =>
    if accepts past_questions question_data then
      let valid_questions := valid_questions ++ [question_data] in
      if max_questions <=? length valid_questions then valid_questions
      else scan_blocks past_questions max_questions questions_data'
                       valid_questions
    else scan_blocks past_questions max_questions questions_data'
                     valid_questions
  end.

(** The [while] loop; [remaining] is [max_attempts - attempt]. *)
Fixpoint attempts (source : CompletionSource) (req : ChatRequest)
    (past_questions : option (list Question.t)) (max_questions : nat)
    (remaining : nat) (valid_questions : list pystr) (w : World.t)
  : list pystr * World.t :=
  match remaining with
  | O => (valid_questions, w)
  | S remaining' =>
    if max_questions <=? length valid_questions then (valid_questions, w)
    else
      let '(content, w) := Orm.chat_completion source req w in
      let questions_data_all := Str.strip content in
      let questions_data := Str.split [newline; newline] questions_data_all in
      let valid_questions :=
        scan_blocks past_questions max_questions questions_data
                    valid_questions in
      if max_questions <=? length valid_questions then (valid_questions, w)
      else attempts source req past_questions max_questions remaining'
                    valid_questions w
  end.

Definition generate_and_validate (source : CompletionSource)
    (prompt system_content : pystr)
    (past_questions : option (list Question.t))
    (max_questions max_attempts : nat) (w : World.t)
  : list pystr * World.t :=
  attempts source
    {| system_content := system_content; user_content := prompt |}
    past_questions max_questions max_attempts [] w.

End QuestionGenerator.

Module QuestionPersistenceService.

(** [if difficulty:] *)
Definition given (difficulty : option pystr) : option pystr :=
  match difficulty with
  | Some (c :: d) => Some (c :: d)
  | _ => None
  end.

(** The loop [for i, question_data in enumerate(valid_questions[:10], 1)],
    from index [i] on. *)
Fixpoint save_each (user : CustomUser.t) (theme : pystr)
    (difficulty : option pystr) (i : Z) (items : list pystr) (w : World.t)
  : World.t :=
  match items with
  | [] => w
  | question_data :: items' =>
    let '(question, w) :=
      Orm.create_question (CustomUser.id user) theme question_data i
        (given difficulty) w in
    let entry := SessionEntry.mk (Question.id question) question_data theme i in
    let w :=
      World.set_session_all_questions
        (Some (default [] (World.session_all_questions w) ++ [entry])) w in
    save_each user theme difficulty (i + 1)%Z items' w
  end.

Definition save_to_session (user : CustomUser.t) (valid_questions : list pystr)
    (theme : pystr) (difficulty : option pystr) (w : World.t)
  : CustomUser.t * World.t :=
  let w := World.set_session_all_questions (Some []) w in
  let w := save_each user theme difficulty 1 (take 10 valid_questions) w in
  let w := World.set_session_modified true w in
  let user :=
    CustomUser.set_generate_count
      (CustomUser.generate_count user + Z.of_nat (length valid_questions))%Z
      user in
  (user, Orm.save_user user w).

End QuestionPersistenceService.

Module QuestionGenerationOrchestrator.

Definition insufficient_message : pystr :=
  py "有効な問題を生成できませんでした。別のキーワードでお試しください。".

(** Both methods return the pair [(theme, error_message)]; the user object
    and the state after the call come with it. *)
Definition outcome : Type := (option pystr * option pystr) * CustomUser.t * World.t.

Definition generate_from_file (source : CompletionSource)
    (user : CustomUser.t) (uploaded_file : FileProcessor.UploadedFile)
    (w : World.t) : result outcome :=
  extracted_text ← FileProcessor.process_file uploaded_file;
  let '(prompt, system_content, theme) :=
    PromptBuilder.build_file_prompt extracted_text in
  let '(valid_questions, w) :=
    QuestionGenerator.generate_and_validate source prompt system_content
      None 10 5 w in
  if length valid_questions <? 10 then
    Ok ((None, Some insufficient_message), user, w)
  else
    let '(user, w) :=
      QuestionPersistenceService.save_to_session user valid_questions theme
        None w in
    Ok ((Some theme, None), user, w).

Definition generate_from_text (source : CompletionSource) (today : Z)
    (user : CustomUser.t) (theme difficulty : pystr) (w : World.t)
  : outcome :=
  let '((can_generate, error_message), user, w) :=
    PremiumLimitChecker.can_generate today user w in
  if negb can_generate then ((None, error_message), user, w)
  else
    let past_questions :=
      Orm.filter_user_theme_20 (CustomUser.id user) theme w in
    let '(prompt, system_content) :=
      PromptBuilder.build_text_prompt theme difficulty in
    let '(valid_questions, w) :=
      QuestionGenerator.generate_and_validate source prompt system_content
        (Some past_questions) 10 5 w in
    if length valid_questions <? 10 then
      ((None, Some insufficient_message), user, w)
    else
      let '(user, w) :=
        PremiumLimitChecker.update_daily_count user
          (Z.of_nat (length valid_questions)) w in
      let '(user, w) :=
        QuestionPersistenceService.save_to_session user valid_questions theme
          (Some difficulty) w in
      ((Some theme, None), user, w).

End QuestionGenerationOrchestrator.

(* ===================================================================== *)
(** * Vocabulary of the statements about generation *)
(* ===================================================================== *)

(** The contents a completion source answers to [n] successive requests
    [req], the first one made when the log is [log]. *)
Fixpoint responses (source : CompletionSource) (req : ChatRequest) (n : nat)
    (log : list ChatRequest) : list pystr :=
  match n with
  | O => []
  | S n' => source log req :: responses source req n' (log ++ [req])
  end.

(** The candidate blocks of one response that pass validation, in order. *)
Definition valid_blocks (past_questions : option (list Question.t))
    (content : pystr) : list pystr :=
  List.filter (QuestionGenerator.accepts past_questions)
    (Str.split [QuestionGenerator.newline; QuestionGenerator.newline]
       (Str.strip content)).

(** The rows of freshly created questions with the texts [texts], numbered
    from 1, the first one under the key [first_id]. *)
Definition numbered_rows (user : Z) (theme : pystr) (difficulty : option pystr)
    (first_id : Z) (texts : list pystr) : list Question.t :=
  imap (fun n text =>
          Question.mk (first_id + Z.of_nat n) user theme text None None None
            None (Some (Z.of_nat n + 1)%Z) difficulty) texts.

(** The session entries that go with them. *)
Definition numbered_entries (theme : pystr) (first_id : Z) (texts : list pystr)
  : list SessionEntry.t :=
  imap (fun n text =>
          SessionEntry.mk (first_id + Z.of_nat n) text theme (Z.of_nat n + 1)%Z)
       texts.

(** The requests of the two modes. *)
Definition text_request (theme difficulty : pystr) : ChatRequest :=
  let '(prompt, system_content) :=
    PromptBuilder.build_text_prompt theme difficulty in
  {| system_content := system_content; user_content := prompt |}.

Definition file_request (extracted_text : pystr) : ChatRequest :=
  let '(prompt, system_content, _) :=
    PromptBuilder.build_file_prompt extracted_text in
  {| system_content := system_content; user_content := prompt |}.

(** A user with other quota fields. *)
Definition with_quota (date : option Z) (count : Z) (user : CustomUser.t)
  : CustomUser.t :=
  CustomUser.set_daily_generated_count count
    (CustomUser.set_last_generated_date date user).

(** ** Mock completion sources, for the examples *)

Module Mock.

(** A source that answers every request with [content]. *)
Definition constant (content : pystr) : CompletionSource := fun _ _ => content.

(** A well-formed candidate block: a stem and four options. *)
Definition block (n : pystr) : pystr :=
  n ++ py ". Pythonの特徴として正しいものはどれですか？
(A) 静的型付けのみ
(B) インデントで構造を表す
(C) コンパイルが必須
(D) 変数宣言が必須".

Definition separator : pystr :=
  [QuestionGenerator.newline; QuestionGenerator.newline].

(** [blocks] joined by blank lines. *)
Fixpoint join (blocks : list pystr) : pystr :=
  match blocks with
  | [] => []
  | [x] => x
  | x :: rest => x ++ separator ++ join rest
  end.

(** Twelve well-formed blocks in one response. *)
Definition twelve_blocks : pystr :=
  join (block <$> [py "1"; py "2"; py "3"; py "4"; py "5"; py "6"; py "7";
                   py "8"; py "9"; py "10"; py "11"; py "12"]).

(** Only one well-formed block: the second has a short stem and the third
    too few lines. *)
Definition one_block : pystr :=
  join [block (py "1"); py "2. 短い？
(A) a
(B) b
(C) c
(D) d"; py "3. これは十分に長い問題文ですか？
(A) a"].

Definition user : CustomUser.t :=
  CustomUser.mk 1 false 0 0 (Float.of_int 0) 0 None 0.

Definition pdf : FileProcessor.UploadedFile :=
  {| FileProcessor.content_type := py "application/pdf";
     FileProcessor.image_size := (0%Z, 0%Z);
     FileProcessor.pdf_pages := [py "Pythonの基礎について。"; py "変数と型。"] |}.

End Mock.

(* ===================================================================== *)
(** * Vocabulary of the statements about difflib *)
(* ===================================================================== *)

(** The indices of [b], counted from [i], that hold [elt]. *)
Fixpoint positions (elt : N) (i : nat) (b : pystr) : list nat :=
  match b with
  | [] => []
  | y :: b' =>
    if (y =? elt)%N then i :: positions elt (S i) b'
    else positions elt (S i) b'
  end.

(** The index list [b2j.get(elt, [])] of an element. *)
Definition indices (b : pystr) (elt : N) : list nat :=
  default [] (difflib.chain_b b !! elt).

(** [elt] has a non-empty index list: it occurs in [b] and is not popular. *)
Definition indexed (b : pystr) (elt : N) : bool :=
  match indices b elt with
  | [] => false
  | _ :: _ => true
  end.

(** The number of consecutive indexed elements of [s] that end at index [i],
    not going below index [lo]. *)
Fixpoint run (s : pystr) (lo i : nat) : nat :=
  let before := match i with
                | O => 0
                | S i' => run s lo i'
                end in
  if (lo <=? i) && match s !! i with
                   | Some elt => indexed s elt
                   | None => false
                   end
  then S before else 0.

(** Two texts with no character in common. *)
Definition unrelated (a b : pystr) : Prop := forall c, c ∈ a -> c ∉ b.

(** The work left in a queue of ranges: each range counts for twice its
    length in [a] plus one. *)
Definition queue_weight (queue : list (nat * nat * nat * nat)) : nat :=
  sum_list_with (fun r : nat * nat * nat * nat => 2 * (r.1.1.2 - r.1.1.1) + 1)
                queue.

(** A range [(alo, ahi, blo, bhi)] whose bounds are in order. *)
Definition range_ok (r : nat * nat * nat * nat) : Prop :=
  r.1.1.1 <= r.1.1.2 /\ r.1.2 <= r.2.

(** A match that lies inside the ranges [a[alo:ahi]] and [b[blo:bhi]]. *)
Definition within (alo ahi blo bhi : nat) (x : difflib.Match) : Prop :=
  alo <= x.1.1 /\ x.1.1 + x.2 <= ahi /\ blo <= x.1.2 /\ x.1.2 + x.2 <= bhi.

(** The lengths recorded in [j2len] are at most [n], and none of the
    matches they stand for starts before [blo]. *)
Definition lengths_below (n blo : nat) (j2len : gmap nat nat) : Prop :=
  forall j k, j2len !! j = Some k -> k <= n /\ k <= j + 1 - blo.

(** [run] at the index before [i]. *)
Definition run_before (s : pystr) (lo i : nat) : nat :=
  match i with
  | O => 0
  | S i' => run s lo i'
  end.

(** What holds of the state of [find_longest_match] when it enters row [i]
    while matching [s] against itself from [lo]: the best match lies on the
    diagonal, the recorded lengths are bounded by the runs, the length on
    the diagonal is the run, and the best match is at least as long as every
    run seen. *)
Definition diagonal_state (s : pystr) (lo i : nat) (j2len : gmap nat nat)
    (best : difflib.Match) : Prop :=
  best.1.1 = best.1.2 /\
  (forall j k, j2len !! j = Some k -> k <= run s lo j /\ k <= run_before s lo i) /\
  difflib.j2len_get_pred j2len i = run_before s lo i /\
  (forall j, lo <= j -> j < i -> run s lo j <= difflib.size best).

(** The lengths put in [newj2len] while row [i] is scanned. *)
Definition row_lengths (s : pystr) (lo i : nat) (newj2len : gmap nat nat) : Prop :=
  forall j k, newj2len !! j = Some k -> k <= run s lo j /\ k <= run s lo i.

(** The 53-bit significand of [float(p)] for a [p] of at most 53 bits:
    [p] shifted left until it has 53 bits. *)
Definition mantissa53 (p : positive) : positive :=
  match (53 - Zpos (digits2_pos p))%Z with
  | Zpos k => Pos.iter xO p k
  | _ => p
  end.

(** A stored question with the text [text], for the examples. *)
Definition prior (text : pystr) : Question.t :=
  Question.mk 1 1 [] text None None None None (Some 1%Z) None.

(* ===================================================================== *)
(** * question_display.py: parsing, filtering, retrieval *)
(* ===================================================================== *)

Module QuestionParser.

(** One entry of [options]: the dictionary [{'letter': .., 'text': ..}]. *)
Record option_entry := {
  letter : pystr;
  text : pystr
}.

Definition lparen : N := 40.
Definition rparen : N := 41.
Definition newline : N := 10.

(** [line.index(c)], used where [c in line] holds. *)
Definition index (c : N) (line : pystr) : nat :=
  length (QuestionTextCleaner.before c line).

(** The body of the loop over [lines[1:]]: the option a line gives, if it
    has the shape of one. *)
Definition parse_line (line : pystr) : option option_entry :=
  if Str.startswith [lparen] (Str.strip line) && Str.contains rparen line then
    let close := index rparen line in
    let option_letter := Str.strip (drop 1 (take close line)) in
    let option_text := Str.strip (drop (close + 1) line) in
    let option_letter :=
      Str.replace [rparen] [] (Str.replace [lparen] [] option_letter) in
    Some {| letter := option_letter; text := option_text |}
  else None.

Definition parse_question (question_text : pystr)
  : pystr * list option_entry :=
  let lines := Str.split [newline] question_text in
  let main_question := match lines with
                       | [] => []
                       | first :: _ => first
                       end in
  (main_question, omap parse_line (drop 1 lines)).

(** The dictionary of [build_context], one field per key. *)
Record context := {
  question : pystr;
  options : list option_entry;
  question_text : pystr;
  keyword : pystr;
  question_number : Z;
  question_id : Z;
  total_questions : Z;
  has_next : bool;
  has_previous : bool;
  next_number : Z;
  previous_number : Z;
  is_retry : bool
}.

(** [total] is [len(all_questions)]. *)
Definition build_context (main_question : pystr) (options : list option_entry)
    (question_text keyword : pystr) (question_number question_id : Z)
    (total : nat) (is_retry : bool) : context :=
  {| question := main_question;
     options := options;
     question_text := question_text;
     keyword := keyword;
     question_number := question_number;
     question_id := question_id;
     total_questions := Z.of_nat total;
     has_next := (question_number <? Z.of_nat total)%Z;
     has_previous := (1 <? question_number)%Z;
     next_number := (question_number + 1)%Z;
     previous_number := (question_number - 1)%Z;
     is_retry := is_retry |}.

(** A block as the generation prompt asks for it: the stem, then one line
    [(letter) text] per option. *)
Definition format_option (o : option_entry) : pystr :=
  [lparen] ++ letter o ++ [rparen] ++ [32%N] ++ text o.

Definition format_question (stem : pystr) (options : list option_entry) : pystr :=
  stem ++ concat ((fun o => newline :: format_option o) <$> options).

End QuestionParser.

Module QuestionFilterService.

(** [questions.filter(...)] for the five filter names; any other name
    returns [questions]. *)
Definition filter_questions (questions : list Question.t)
    (filter_option : pystr) : list Question.t :=
  if Str.eqb filter_option (py "incorrect_first") then
    List.filter (fun q => bool_decide (Question.is_correct_first q = Some false))
                questions
  else if Str.eqb filter_option (py "correct_first") then
    List.filter (fun q => bool_decide (Question.is_correct_first q = Some true))
                questions
  else if Str.eqb filter_option (py "incorrect_second") then
    List.filter (fun q => bool_decide (Question.is_correct q = Some false))
                questions
  else if Str.eqb filter_option (py "correct_second") then
    List.filter (fun q => bool_decide (Question.is_correct q = Some true))
                questions
  else if Str.eqb filter_option (py "retry_none") then
    List.filter (fun q => bool_decide (Question.is_correct q = None)) questions
  else questions.

End QuestionFilterService.

Module CleanedQuestion.
(** One entry of the list built by [QuestionTextCleaner.clean_questions]. *)
Record t := mk {
  original_text : pystr;
  text : pystr;
  question_number : option Z;
  is_correct_first : option bool;
  is_correct : option bool;
  question_id : Z
}.
End CleanedQuestion.

Module QuestionListCleaner.

(** [QuestionTextCleaner.clean_questions] *)
Definition clean_questions (questions : list Question.t)
  : list CleanedQuestion.t :=
  (fun question =>
     CleanedQuestion.mk (Question.question_text question)
       (QuestionTextCleaner.clean_question_text
          (Question.question_text question))
       (Question.question_number question)
       (Question.is_correct_first question)
       (Question.is_correct question)
       (Question.id question)) <$> questions.

End QuestionListCleaner.

(** An [IndexError] or a value. *)
Inductive indexed_result (A : Type) :=
| Found (x : A)
| IndexError.
Arguments Found {A} x.
Arguments IndexError {A}.

Module QuestionRetrievalService.

(** [all_questions] is a list of session entries or a query set. *)
Inductive all_questions :=
| SessionList (entries : list SessionEntry.t)
| QuerySet (rows : list Question.t).

(** [len(all_questions)] or [all_questions.count()]. *)
Definition count (questions : all_questions) : nat :=
  match questions with
  | SessionList entries => length entries
  | QuerySet rows => length rows
  end.

Definition id_le (q1 q2 : Question.t) : Prop :=
  (Question.id q1 <= Question.id q2)%Z.

#[global] Instance id_le_dec : RelDecision id_le.
Proof. intros q1 q2. unfold id_le. apply _. Defined.

(** [.order_by('id')] *)
Definition order_by_id (rows : list Question.t) : list Question.t :=
  merge_sort id_le rows.

(** [Question.objects.filter(user=request.user, theme=keyword)
    .order_by('id')] *)
Definition of_theme (user : Z) (keyword : pystr) (w : World.t)
  : list Question.t :=
  order_by_id
    (List.filter (fun q => (Question.user q =? user)%Z
                           && Str.eqb (Question.theme q) keyword)
                 (World.questions w)).

Section Contains.
(** [question_text__contains]: the containment test of the database
    ([substring haystack]), taken as given. *)
Variable contains : pystr -> pystr -> bool.

(** [question_id] is [None] for the empty string; the key it names
    otherwise. *)
Definition get_questions (user : Z) (keyword : pystr) (is_retry : bool)
    (question_text : pystr) (question_id : option Z) (w : World.t)
  : all_questions :=
  if is_retry then
    match question_id with
    | Some key =>
      match List.find (fun q => (Question.id q =? key)%Z
                                && (Question.user q =? user)%Z
                                && Str.eqb (Question.theme q) keyword)
                      (World.questions w) with
      | Some _ => QuerySet (of_theme user keyword w)
      | None => QuerySet (of_theme user keyword w)
      end
    | None =>
      if negb (Str.eqb question_text []) then
        let questions :=
          order_by_id
            (List.filter (fun q => (Question.user q =? user)%Z
                                   && Str.eqb (Question.theme q) keyword
                                   && Str.eqb (Question.question_text q)
                                              question_text)
                         (World.questions w)) in
        if length questions =? 0 then
          let needle := if 50 <? length question_text
                        then take 50 question_text else question_text in
          QuerySet
            (order_by_id
               (List.filter (fun q => (Question.user q =? user)%Z
                                      && Str.eqb (Question.theme q) keyword
                                      && contains needle
                                           (Question.question_text q))
                            (World.questions w)))
        else QuerySet questions
      else QuerySet (of_theme user keyword w)
    end
  else SessionList (default [] (World.session_all_questions w)).

End Contains.

(** What [get_current_question] returns: an entry of the session list or a
    row. *)
Inductive current :=
| Entry (e : SessionEntry.t)
| Row (q : Question.t).

(** [questions_list[question_index]] after the range check. *)
Definition at_index {A} (items : list A) (question_index : Z)
  : indexed_result A :=
  if (question_index <? 0)%Z || (Z.of_nat (length items) <=? question_index)%Z
  then IndexError
  else match items !! Z.to_nat question_index with
       | Some x => Found x
       | None => IndexError
       end.

Definition get_current_question (questions : all_questions)
    (question_index : Z) (is_retry : bool) (question_id : option Z)
    (w : World.t) : indexed_result current :=
  match questions with
  | SessionList entries =>
    match at_index entries question_index with
    | Found e => Found (Entry e)
    | IndexError => IndexError
    end
  | QuerySet rows =>
    if length rows =? 0 then IndexError
    else
      let by_index := match at_index rows question_index with
                      | Found q => Found (Row q)
                      | IndexError => IndexError
                      end in
      match question_id with
      | Some key =>
        if is_retry then
          match Orm.get_question key w with
          | Ok question =>
            match List.find (fun q => (Question.id q =? key)%Z) rows with
            | Some q => Found (Row q)
            | None => Found (Row question)
            end
          | Raise _ => by_index
          end
        else by_index
      | None => by_index
      end
  end.

End QuestionRetrievalService.
(* ===================================================================== *)
(** * Theorems *)
(* ===================================================================== *)

(** Literals stay folded under [simpl]. *)
Arguments Utf8.decode : simpl never.

(** The literals of the source decode to the expected code points. *)
Example literals_decode :
  py "？" = [65311%N] /\ py "。" = [12290%N] /\
  py "問題" = [21839%N; 38988%N] /\ py "正解:" = [27491%N; 35299%N; 58%N] /\
  py "A(" = [65%N; 40%N].
Proof. repeat split; reflexivity. Qed.

Example split_examples :
  Str.split (py "？") (py "aa？bb？") = [py "aa"; py "bb"; []] /\
  Str.split [10%N; 10%N] (py "ab") = [py "ab"] /\
  Str.split [10%N; 10%N] [97%N; 10%N; 10%N; 10%N; 98%N]
    = [[97%N]; [10%N; 98%N]] /\
  Str.strip (py "  x y ") = py "x y" /\
  Str.replace (py "解説:") [] (py "解説:abc解説:") = py "abc".
Proof. repeat split; reflexivity. Qed.

(* ===================================================================== *)
(** * QuestionTextCleaner.clean_question_text *)
(* ===================================================================== *)

Section CleanQuestionText.
Import QuestionTextCleaner.

Lemma startswith_single (c x : N) (s : pystr) :
  Str.startswith [c] (x :: s) = (c =? x)%N.
Proof. simpl. apply andb_true_r. Qed.

Lemma split_go_single_hd (c : N) (s cur : pystr) :
  hd [] (Str.split_go [c] 0 cur s) = rev cur ++ before c s.
Proof.
  revert cur; induction s as [|x s IH]; intros cur.
  - simpl. by rewrite app_nil_r.
  - cbn [Str.split_go before]. rewrite startswith_single.
    rewrite (N.eqb_sym c x). destruct (x =? c)%N.
    + simpl. by rewrite app_nil_r.
    + rewrite IH. simpl. by rewrite <- app_assoc.
Qed.

Lemma first_part_split (c : N) (s : pystr) :
  first_part (Str.split [c] s) = before c s.
Proof. apply (split_go_single_hd c s []). Qed.

Lemma contains_elem_of (c : N) (s : pystr) :
  Str.contains c s = true <-> c ∈ s.
Proof.
  unfold Str.contains. rewrite existsb_exists. split.
  - intros (x & Hin & Hx). apply N.eqb_eq in Hx. subst.
    by apply list_elem_of_In.
  - intros Hin. exists c. split; [by apply list_elem_of_In | apply N.eqb_refl].
Qed.

Lemma contains_false (c : N) (s : pystr) :
  Str.contains c s = false <-> c ∉ s.
Proof.
  rewrite <- contains_elem_of. destruct (Str.contains c s); naive_solver.
Qed.

Lemma before_first_occurrence (c : N) (pre post : pystr) :
  c ∉ pre -> before c (pre ++ c :: post) = pre.
Proof.
  induction pre as [|x pre IH]; intros Hnot; simpl.
  - by rewrite N.eqb_refl.
  - apply not_elem_of_cons in Hnot as [Hne Hnot].
    destruct (N.eqb_spec x c) as [->|_]; [done|].
    by rewrite IH.
Qed.

End CleanQuestionText.

(** The input of the specification's own example, and the cases of the
    repository's tests. *)
Example clean_question_text_tests :
  QuestionTextCleaner.clean_question_text (py "問題1: Pythonとは何か？")
    = py "Pythonとは何か？" /\
  QuestionTextCleaner.clean_question_text
    (py "問題1: Pythonとは何か？これは説明です。") = py "Pythonとは何か？" /\
  QuestionTextCleaner.clean_question_text
    (py "問題1: Pythonとは何か。これは説明です。") = py "Pythonとは何か？".
Proof. repeat split; reflexivity. Qed.

(** C3, as stated, fails: on a text whose full-width period comes before its
    full-width question mark, [clean_question_text] keeps everything up to
    the question mark, while the normaliser of the specification cuts at the
    earlier period. *)
Lemma C3_period_before_question_mark :
  QuestionTextCleaner.clean_question_text (py "問題2: 前提です。Pythonとは何か？補足")
    = py "前提です。Pythonとは何か？" /\
  QuestionTextCleaner.normalize_spec (py "問題2: 前提です。Pythonとは何か？補足")
    = py "前提です？" /\
  QuestionTextCleaner.clean_question_text (py "問題2: 前提です。Pythonとは何か？補足")
    <> QuestionTextCleaner.normalize_spec (py "問題2: 前提です。Pythonとは何か？補足").
Proof. repeat split; try reflexivity. intros H. vm_compute in H. discriminate H. Qed.

(** C3, amended: after the leading run of label characters is removed and
    the rest is stripped to [t], the result is cut at the first full-width
    question mark of [t] whenever [t] has one (wherever its periods are);
    only a [t] without question mark is cut at its first full-width period;
    in both cases the text kept is stripped and ends in a question mark, and
    a [t] with neither terminator is returned as it is. *)
Theorem C3_clean_question_text_cut (text : pystr) :
  let t := Str.strip (QuestionTextCleaner.sub_leading_label text) in
  (forall pre post,
      t = pre ++ QuestionTextCleaner.qmark :: post ->
      QuestionTextCleaner.qmark ∉ pre ->
      QuestionTextCleaner.clean_question_text text
      = Str.strip pre ++ [QuestionTextCleaner.qmark]) /\
  (forall pre post,
      QuestionTextCleaner.qmark ∉ t ->
      t = pre ++ QuestionTextCleaner.period :: post ->
      QuestionTextCleaner.period ∉ pre ->
      QuestionTextCleaner.clean_question_text text
      = Str.strip pre ++ [QuestionTextCleaner.qmark]) /\
  (QuestionTextCleaner.qmark ∉ t -> QuestionTextCleaner.period ∉ t ->
   QuestionTextCleaner.clean_question_text text = t).
Proof.
  intros t. unfold QuestionTextCleaner.clean_question_text. fold t.
  repeat split.
  - intros pre post Ht Hpre.
    assert (Hin : Str.contains QuestionTextCleaner.qmark t = true).
    { apply contains_elem_of. rewrite Ht. set_solver. }
    rewrite Hin, first_part_split, Ht.
    by rewrite before_first_occurrence.
  - intros pre post Hq Ht Hpre.
    apply contains_false in Hq. rewrite Hq.
    assert (Hin : Str.contains QuestionTextCleaner.period t = true).
    { apply contains_elem_of. rewrite Ht. set_solver. }
    rewrite Hin, first_part_split, Ht.
    by rewrite before_first_occurrence.
  - intros Hq Hp. apply contains_false in Hq, Hp. by rewrite Hq, Hp.
Qed.

Lemma C3_clean_question_text_cut_witness :
  QuestionTextCleaner.clean_question_text (py "問題2: 前提です。Pythonとは何か？補足")
  = Str.strip (py "前提です。Pythonとは何か") ++ [QuestionTextCleaner.qmark].
Proof.
  apply (proj1 (C3_clean_question_text_cut (py "問題2: 前提です。Pythonとは何か？補足"))
           (py "前提です。Pythonとは何か") (py "補足")).
  - reflexivity.
  - apply contains_false. reflexivity.
Defined.

(* ===================================================================== *)
(** * AnswerValidationService *)
(* ===================================================================== *)

Section AnswerValidation.
Import AnswerValidationService.

Lemma scan_lines_no_label (lines : list pystr) (acc : option pystr * pystr) :
  Forall (fun line => Str.startswith (py "正解:") line = false) lines ->
  (fold_left scan_line lines acc).1 = acc.1.
Proof.
  intros Hall. revert acc.
  induction Hall as [|line lines Hline _ IH]; intros acc; [done|].
  simpl. rewrite IH. unfold scan_line. rewrite Hline.
  by destruct (Str.startswith (py "解説:") line).
Qed.

Lemma extract_correct_option (content : pystr) :
  (extract content).1.1
  = (fold_left scan_line (Str.split [newline] (Str.strip content)) (None, [])).1.
Proof. unfold extract. by destruct (fold_left _ _ _). Qed.

End AnswerValidation.

(** The cases of [AnswerValidationServiceTest], and a well-formed grading
    response. *)
Example is_correct_tests :
  let is_correct :=
    AnswerValidationService.is_correct AnswerValidationService.ascii_upper in
  is_correct (py "A") (Some (py "A")) = Ok true /\
  is_correct (py "A") (Some (py "B")) = Ok false /\
  is_correct (py "a") (Some (py "A")) = Ok true /\
  is_correct (py "B") (Some (py "b")) = Ok true /\
  AnswerValidationService.extract
    (py "正解:(B)
解説:Bが正しい。") = (Some (py "B"), py "Bが正しい。", py "正解:(B)
解説:Bが正しい。").
Proof. repeat split; reflexivity. Qed.

(** C5 at work on the code: when no line of the grading response begins with
    the correct-answer label, [correct_option] is [None], and the correctness
    check on it does not return: it raises [AttributeError].  With a label
    line present the check is equality of the upper-cased texts. *)
Theorem C5_absent_correct_option_raises
    (upper : pystr -> pystr) (content user_answer : pystr) :
  Forall (fun line => Str.startswith (py "正解:") line = false)
         (Str.split [AnswerValidationService.newline] (Str.strip content)) ->
  (AnswerValidationService.extract content).1.1 = None /\
  AnswerValidationService.is_correct upper user_answer
    (AnswerValidationService.extract content).1.1 = Raise AttributeError /\
  (forall option_text,
      AnswerValidationService.is_correct upper user_answer (Some option_text)
      = Ok (bool_decide (upper user_answer = upper option_text))).
Proof.
  intros Hall.
  assert (Hnone : (AnswerValidationService.extract content).1.1 = None).
  { rewrite extract_correct_option. by rewrite scan_lines_no_label. }
  rewrite Hnone. by repeat split.
Qed.

Lemma C5_absent_correct_option_raises_witness :
  (AnswerValidationService.extract (py "解説:選択肢を確認してください。")).1.1 = None /\
  AnswerValidationService.is_correct AnswerValidationService.ascii_upper (py "A")
    (AnswerValidationService.extract (py "解説:選択肢を確認してください。")).1.1
  = Raise AttributeError.
Proof.
  destruct (C5_absent_correct_option_raises AnswerValidationService.ascii_upper
              (py "解説:選択肢を確認してください。") (py "A")) as (H1 & H2 & _).
  - repeat constructor.
  - exact (conj H1 H2).
Defined.

(* ===================================================================== *)
(** * QuestionUpdateService.update_question *)
(* ===================================================================== *)

Section UpdateQuestion.
Import QuestionUpdateService.

Lemma get_question_id (qid : Z) (w : World.t) (q : Question.t) :
  Orm.get_question qid w = Ok q -> Question.id q = qid.
Proof.
  unfold Orm.get_question. destruct (find _ _) as [q0|] eqn:Hfind; [|done].
  intros [= <-]. apply find_some in Hfind as [_ Hid]. by apply Z.eqb_eq.
Qed.

Lemma find_rewritten_row (qid : Z) (q q' : Question.t) (rows : list Question.t) :
  Question.id q' = qid ->
  find (fun r => (Question.id r =? qid)%Z) rows = Some q ->
  find (fun r => (Question.id r =? qid)%Z)
       (List.map (fun r => if (Question.id r =? Question.id q')%Z then q' else r) rows)
  = Some q'.
Proof.
  intros Hid. induction rows as [|r rows IH]; [done|]. simpl. rewrite Hid.
  destruct (Question.id r =? qid)%Z eqn:Hr.
  - intros _. simpl. rewrite Hid. by rewrite Z.eqb_refl.
  - intros Hfind. simpl. rewrite Hr. rewrite Hid in IH. auto.
Qed.

Lemma get_after_save (qid : Z) (w : World.t) (q q' : Question.t) :
  Orm.get_question qid w = Ok q -> Question.id q' = qid ->
  Orm.get_question qid (Orm.save_question q' w) = Ok q'.
Proof.
  unfold Orm.get_question, Orm.save_question. simpl.
  destruct (find _ (World.questions w)) as [q0|] eqn:Hfind; [|done].
  intros _ Hid. by rewrite (find_rewritten_row qid q0 q' _ Hid Hfind).
Qed.

(** One call, on a question that exists. *)
Lemma update_question_step (w : World.t) (qid : Z) (q : Question.t) (g : grading) :
  Orm.get_question qid w = Ok q ->
  exists w' q',
    update_question qid (graded_correct g) (graded_option g)
                    (graded_explanation g) w
    = Ok (bool_decide (Question.is_correct_first q = None), w') /\
    Orm.get_question qid w' = Ok q' /\
    Question.is_correct_first q'
    = Some (default (graded_correct g) (Question.is_correct_first q)) /\
    Question.is_correct q'
    = match Question.is_correct_first q with
      | Some _ => Some (graded_correct g)
      | None => Question.is_correct q
      end /\
    Question.correct_option q' = graded_option g /\
    Question.explanation q' = Some (graded_explanation g).
Proof.
  intros Hget. pose proof (get_question_id _ _ _ Hget) as Hid.
  unfold update_question. rewrite Hget. simpl.
  destruct (Question.is_correct_first q) as [b|] eqn:Hfirst; simpl.
  - eexists _, _. split; [reflexivity|]. split.
    + by apply (get_after_save qid w q).
    + simpl. by rewrite Hfirst.
  - eexists _, _. split; [reflexivity|]. split.
    + by apply (get_after_save qid w q).
    + by simpl.
Qed.

(** A non-empty run of calls: the flags, and the row at the end. *)
Lemma grade_all_nonempty (gs : list grading) :
  forall (w : World.t) (qid : Z) (q : Question.t) (g : grading),
  Orm.get_question qid w = Ok q ->
  exists w' q',
    grade_all qid (g :: gs) w
    = Ok (bool_decide (Question.is_correct_first q = None)
            :: repeat false (length gs), w') /\
    Orm.get_question qid w' = Ok q' /\
    Question.is_correct_first q'
    = Some (default (graded_correct g) (Question.is_correct_first q)) /\
    Question.is_correct q'
    = match last gs with
      | Some g' => Some (graded_correct g')
      | None => match Question.is_correct_first q with
                | Some _ => Some (graded_correct g)
                | None => Question.is_correct q
                end
      end /\
    Question.correct_option q' = graded_option (default g (last gs)) /\
    Question.explanation q' = Some (graded_explanation (default g (last gs))).
Proof.
  induction gs as [|g2 gs IH]; intros w qid q g Hget.
  - destruct (update_question_step w qid q g Hget)
      as (w1 & q1 & Hupd & Hget1 & Hfirst & Hcorrect & Hopt & Hexp).
    exists w1, q1. cbn [grade_all]. rewrite Hupd. simpl. by repeat split.
  - destruct (update_question_step w qid q g Hget)
      as (w1 & q1 & Hupd & Hget1 & Hfirst & _).
    destruct (IH w1 qid q1 g2 Hget1)
      as (w2 & q2 & Hrest & Hget2 & Hfirst2 & Hcorrect2 & Hopt2 & Hexp2).
    exists w2, q2. rewrite Hfirst in Hrest, Hfirst2, Hcorrect2.
    change (grade_all qid (g :: g2 :: gs) w)
      with (r ← update_question qid (graded_correct g) (graded_option g)
                  (graded_explanation g) w;
            rs ← grade_all qid (g2 :: gs) r.2; Ok (r.1 :: rs.1, rs.2)).
    rewrite Hupd. simpl in *. rewrite Hrest. simpl.
    split; [done|]. split; [done|]. split; [done|].
    rewrite last_cons. destruct (last gs) as [g'|] eqn:Hlast; by simpl in *.
Qed.

End UpdateQuestion.

(** C1: a grading call on a question whose [is_correct_first] is unset sets
    it to the call's correctness, leaves [is_correct] as it was and returns
    [is_first = True]; a call on a question whose [is_correct_first] is set
    sets [is_correct], leaves [is_correct_first] and returns [False].  Hence,
    over any sequence of calls on a fresh question, [is_correct_first] is the
    correctness of the first call, whatever the later calls are, only the
    first call reports [is_first], and [is_correct] is the correctness of the
    last retry. *)
Theorem C1_is_correct_first_write_once
    (w : World.t) (question_id : Z) (q : Question.t) :
  Orm.get_question question_id w = Ok q ->
  (forall g, exists w' q',
      QuestionUpdateService.update_question question_id (graded_correct g)
        (graded_option g) (graded_explanation g) w
      = Ok (bool_decide (Question.is_correct_first q = None), w') /\
      Orm.get_question question_id w' = Ok q' /\
      match Question.is_correct_first q with
      | None =>
          Question.is_correct_first q' = Some (graded_correct g) /\
          Question.is_correct q' = Question.is_correct q
      | Some first =>
          Question.is_correct q' = Some (graded_correct g) /\
          Question.is_correct_first q' = Some first
      end) /\
  (Question.is_correct_first q = None ->
   forall g gs, exists w' q',
      grade_all question_id (g :: gs) w
      = Ok (true :: repeat false (length gs), w') /\
      Orm.get_question question_id w' = Ok q' /\
      Question.is_correct_first q' = Some (graded_correct g) /\
      Question.is_correct q'
      = match last gs with
        | Some g' => Some (graded_correct g')
        | None => Question.is_correct q
        end) /\
  (forall first, Question.is_correct_first q = Some first ->
   forall g gs, exists w' q',
      grade_all question_id (g :: gs) w
      = Ok (repeat false (length (g :: gs)), w') /\
      Orm.get_question question_id w' = Ok q' /\
      Question.is_correct_first q' = Some first /\
      Question.is_correct q' = Some (graded_correct (default g (last gs)))).
Proof.
  intros Hget. split; [|split].
  - intros g.
    destruct (update_question_step w question_id q g Hget)
      as (w' & q' & Hupd & Hget' & Hfirst & Hcorrect & _).
    exists w', q'. split; [done|]. split; [done|].
    by destruct (Question.is_correct_first q).
  - intros Hunset g gs.
    destruct (grade_all_nonempty gs w question_id q g Hget)
      as (w' & q' & Hrun & Hget' & Hfirst & Hcorrect & _).
    exists w', q'. rewrite Hunset in Hrun, Hfirst, Hcorrect. by repeat split.
  - intros first Hset g gs.
    destruct (grade_all_nonempty gs w question_id q g Hget)
      as (w' & q' & Hrun & Hget' & Hfirst & Hcorrect & _).
    exists w', q'. rewrite Hset in Hrun, Hfirst, Hcorrect.
    split; [done|]. split; [done|]. split; [done|].
    by destruct (last gs).
Qed.

(** A question with key 7 in an otherwise empty database, graded wrong, then
    right, then wrong. *)
Lemma C1_is_correct_first_write_once_witness :
  let q := Question.mk 7 1 (py "Python") (py "Pythonとは何ですか") None None None
             None (Some 1%Z) None in
  let w := World.set_questions [q] World.empty in
  exists w' q',
    grade_all 7 [Build_grading false (Some (py "B")) (py "x");
                 Build_grading true (Some (py "B")) (py "y");
                 Build_grading false (Some (py "C")) (py "z")] w
    = Ok ([true; false; false], w') /\
    Orm.get_question 7 w' = Ok q' /\
    Question.is_correct_first q' = Some false /\
    Question.is_correct q' = Some false.
Proof.
  intros q w.
  apply (proj1 (proj2 (C1_is_correct_first_write_once w 7%Z q eq_refl)) eq_refl
           (Build_grading false (Some (py "B")) (py "x"))
           [Build_grading true (Some (py "B")) (py "y");
            Build_grading false (Some (py "C")) (py "z")]).
Defined.

(** C10: every grading call, first attempt or retry, stores the
    [correct_option] and the [explanation] it was given; after a sequence of
    calls the row holds those of the last call, while [is_correct_first] is
    still the correctness of the first. *)
Theorem C10_grading_overwrites_option_and_explanation
    (w : World.t) (question_id : Z) (q : Question.t) :
  Orm.get_question question_id w = Ok q ->
  (forall g, exists is_first w' q',
      QuestionUpdateService.update_question question_id (graded_correct g)
        (graded_option g) (graded_explanation g) w = Ok (is_first, w') /\
      Orm.get_question question_id w' = Ok q' /\
      Question.correct_option q' = graded_option g /\
      Question.explanation q' = Some (graded_explanation g)) /\
  (Question.is_correct_first q = None ->
   forall g gs, exists flags w' q',
      grade_all question_id (g :: gs) w = Ok (flags, w') /\
      Orm.get_question question_id w' = Ok q' /\
      Question.correct_option q' = graded_option (default g (last gs)) /\
      Question.explanation q' = Some (graded_explanation (default g (last gs))) /\
      Question.is_correct_first q' = Some (graded_correct g)).
Proof.
  intros Hget. split.
  - intros g.
    destruct (update_question_step w question_id q g Hget)
      as (w' & q' & Hupd & Hget' & _ & _ & Hopt & Hexp).
    by eexists _, w', q'.
  - intros Hunset g gs.
    destruct (grade_all_nonempty gs w question_id q g Hget)
      as (w' & q' & Hrun & Hget' & Hfirst & _ & Hopt & Hexp).
    rewrite Hunset in Hfirst. by eexists _, w', q'.
Qed.

(** A first attempt answered (B), then a retry whose grading response names
    (C): the row ends with (C) and the retry's explanation. *)
Lemma C10_grading_overwrites_option_and_explanation_witness :
  let q := Question.mk 7 1 (py "Python") (py "Pythonとは何ですか") None None None
             None (Some 1%Z) None in
  let w := World.set_questions [q] World.empty in
  exists flags w' q',
    grade_all 7 [Build_grading false (Some (py "B")) (py "first");
                 Build_grading true (Some (py "C")) (py "retry")] w
    = Ok (flags, w') /\
    Orm.get_question 7 w' = Ok q' /\
    Question.correct_option q' = Some (py "C") /\
    Question.explanation q' = Some (py "retry") /\
    Question.is_correct_first q' = Some false.
Proof.
  intros q w.
  apply (proj2 (C10_grading_overwrites_option_and_explanation w 7%Z q eq_refl)
           eq_refl (Build_grading false (Some (py "B")) (py "first"))
           [Build_grading true (Some (py "C")) (py "retry")]).
Defined.

(* ===================================================================== *)
(** * ExplanationContextBuilder.build_context *)
(* ===================================================================== *)

(** C9: the explanation view shows [is_correct_first] when it is set and
    falls back to [is_correct] otherwise; the answer echo, the images, the
    back link and the next button are off; there is one question and no
    next one. *)
Theorem C9_explanation_context
    (q : Question.t) (keyword : pystr) (question_number : Z) (is_retry : pystr) :
  let ctx := ExplanationContextBuilder.build_context q keyword question_number
               is_retry in
  (forall first, Question.is_correct_first q = Some first ->
                 ExplanationContextBuilder.is_correct ctx = Some first) /\
  (Question.is_correct_first q = None ->
   ExplanationContextBuilder.is_correct ctx = Question.is_correct q) /\
  ExplanationContextBuilder.show_user_answer ctx = false /\
  ExplanationContextBuilder.show_images ctx = false /\
  ExplanationContextBuilder.show_back_link ctx = false /\
  ExplanationContextBuilder.show_next_button ctx = false /\
  ExplanationContextBuilder.total_questions ctx = 1%Z /\
  ExplanationContextBuilder.has_next ctx = false.
Proof.
  simpl. split; [|split]; [| |by repeat split].
  - by intros first ->.
  - by intros ->.
Qed.

(** A question answered wrong at first and right on a retry is shown as
    wrong. *)
Lemma C9_explanation_context_witness :
  ExplanationContextBuilder.is_correct
    (ExplanationContextBuilder.build_context
       (Question.mk 7 1 (py "Python") (py "Pythonとは何ですか") (Some (py "B"))
          (Some true) (Some false) (Some (py "解説")) (Some 1%Z) None)
       (py "Python") 1 [])
  = Some false.
Proof.
  apply (proj1 (C9_explanation_context
                  (Question.mk 7 1 (py "Python") (py "Pythonとは何ですか")
                     (Some (py "B")) (Some true) (Some false) (Some (py "解説"))
                     (Some 1%Z) None)
                  (py "Python") 1 []) false).
  reflexivity.
Defined.

(* ===================================================================== *)
(** * UserStatisticsService.update_statistics *)
(* ===================================================================== *)

(** The float literals denote the correctly rounded values. *)
Example float_literals :
  Float.truediv 4 10 = Float.lit_0_4 /\ Float.of_int 1 = Float.lit_1_0 /\
  Float.of_int 2 = Float.lit_2_0 /\ Float.of_int 80 = Float.lit_80_0.
Proof. repeat split; reflexivity. Qed.

(** The three cases of [UserStatisticsServiceTest]. *)
Example update_statistics_tests :
  let user cc := CustomUser.mk 1 false cc 10 (Float.of_int 0) 0 None 0 in
  let run u f c := (UserStatisticsService.update_statistics u f c World.empty).1 in
  CustomUser.correct_count (run (user 5%Z) true true) = 6%Z /\
  CustomUser.correct_count (run (user 5%Z) false true) = 5%Z /\
  CustomUser.accuracy (run (user 7%Z) true true) = Float.lit_80_0.
Proof. repeat split; reflexivity. Qed.

(** C6, as stated, fails: an update for a non-first attempt recomputes
    [accuracy] like any other update.  Here [accuracy] is 50.0 from a time
    when [generate_count] was 10; with [generate_count] now 20 a retry
    leaves [correct_count] at 5 and moves [accuracy] to 25.0. *)
Lemma C6_retry_recomputes_accuracy :
  let user := CustomUser.mk 1 false 5 20 (Float.of_int 50) 0 None 0 in
  let user' :=
    (UserStatisticsService.update_statistics user false true World.empty).1 in
  CustomUser.correct_count user' = 5%Z /\
  CustomUser.accuracy user' = Float.of_int 25 /\
  CustomUser.accuracy user' <> CustomUser.accuracy user.
Proof. repeat split; try reflexivity. intros H. vm_compute in H. discriminate H. Qed.

(** C6, amended: an update adds 1 to [correct_count] exactly when the answer
    is a first attempt and correct, and never changes [generate_count]; then,
    first attempt or not, [accuracy] becomes
    [correct_count / generate_count * 100] when [generate_count > 0] and is
    left as it was otherwise; the user row is saved.  So a non-first
    attempt leaves [correct_count] as it was, and leaves [accuracy] as it
    was when [accuracy] already was that quotient.  From
    [generate_count = 10], [correct_count = 7] a first correct answer gives
    [correct_count = 8], [accuracy = 80.0]. *)
Theorem C6_update_statistics
    (user : CustomUser.t) (is_first is_correct : bool) (w : World.t) :
  let r := UserStatisticsService.update_statistics user is_first is_correct w in
  let quotient_of u :=
    Float.mul (Float.truediv (CustomUser.correct_count u)
                             (CustomUser.generate_count u)) (Float.of_int 100) in
  CustomUser.correct_count r.1
  = (CustomUser.correct_count user + if is_first && is_correct then 1 else 0)%Z /\
  CustomUser.generate_count r.1 = CustomUser.generate_count user /\
  ((0 < CustomUser.generate_count user)%Z ->
   CustomUser.accuracy r.1 = quotient_of r.1) /\
  ((CustomUser.generate_count user <= 0)%Z ->
   CustomUser.accuracy r.1 = CustomUser.accuracy user) /\
  (is_first = false ->
   CustomUser.correct_count r.1 = CustomUser.correct_count user /\
   (CustomUser.accuracy user = quotient_of user ->
    CustomUser.accuracy r.1 = CustomUser.accuracy user)) /\
  (CustomUser.generate_count user = 10%Z -> CustomUser.correct_count user = 7%Z ->
   is_first = true -> is_correct = true ->
   CustomUser.correct_count r.1 = 8%Z /\
   CustomUser.accuracy r.1 = Float.lit_80_0) /\
  World.users r.2 !! CustomUser.id r.1 = Some r.1.
Proof.
  unfold UserStatisticsService.update_statistics.
  destruct user as [uid prem cc gc acc nac lgd dgc]. simpl.
  destruct (is_first && is_correct) eqn:Hfc; simpl;
    destruct (Z.ltb_spec 0 gc); simpl.
  all: repeat split; intros; subst; simpl in *; try lia; try done;
    try apply lookup_insert_eq.
  all: rewrite Z.add_0_r; done.
Qed.

Lemma C6_update_statistics_witness :
  let user := CustomUser.mk 1 false 7 10 (Float.of_int 70) 0 None 0 in
  let r := UserStatisticsService.update_statistics user true true World.empty in
  CustomUser.correct_count r.1 = 8%Z /\ CustomUser.accuracy r.1 = Float.lit_80_0.
Proof.
  intros user r.
  destruct (C6_update_statistics user true true World.empty)
    as (_ & _ & _ & _ & _ & Hexample & _).
  apply Hexample; reflexivity.
Defined.

(* ===================================================================== *)
(** * PremiumLimitChecker.can_generate *)
(* ===================================================================== *)

(** C4: a premium user passes and nothing is touched.  For any other user,
    a stored date other than today first resets the date to today and the
    count to 0 and saves the user; after that, and only then, the call
    fails with the limit message exactly when the count is at least 10.  So a
    count of 10 dated today fails, and the same count dated yesterday is
    reset to 0, saved, and passes. *)
Theorem C4_can_generate (today : Z) (user : CustomUser.t) (w : World.t) :
  let r := PremiumLimitChecker.can_generate today user w in
  (CustomUser.is_premium user = true -> r = ((true, None), user, w)) /\
  (CustomUser.is_premium user = false ->
   (CustomUser.last_generated_date user <> Some today ->
    r.1.2 = with_quota (Some today) 0 user /\
    r.2 = Orm.save_user r.1.2 w /\
    World.users r.2 !! CustomUser.id user = Some r.1.2) /\
   (CustomUser.last_generated_date user = Some today ->
    r.1.2 = user /\ r.2 = w) /\
   r.1.1 = (if (10 <=? CustomUser.daily_generated_count r.1.2)%Z
            then (false, Some PremiumLimitChecker.limit_message)
            else (true, None)) /\
   (CustomUser.daily_generated_count user = 10%Z ->
    CustomUser.last_generated_date user = Some today ->
    r.1.1.1 = false) /\
   (CustomUser.daily_generated_count user = 10%Z ->
    CustomUser.last_generated_date user = Some (today - 1)%Z ->
    r.1.1.1 = true /\ CustomUser.daily_generated_count r.1.2 = 0%Z /\
    CustomUser.last_generated_date r.1.2 = Some today /\
    World.users r.2 !! CustomUser.id user = Some r.1.2)).
Proof.
  unfold PremiumLimitChecker.can_generate, PremiumLimitChecker.DAILY_LIMIT.
  destruct user as [uid prem cc gc acc nac lgd dgc]. simpl. split.
  - by intros ->.
  - intros ->.
    destruct (decide (lgd = Some today)) as [Heq|Hne].
    + rewrite (bool_decide_eq_true_2 _ Heq). simpl.
      destruct (10 <=? dgc)%Z eqn:Hlim; simpl; rewrite ?Hlim;
        repeat split; intros; simplify_eq/=; try done; try lia.
    + rewrite (bool_decide_eq_false_2 _ Hne). simpl.
      repeat split; intros; simplify_eq/=; try done;
        try apply lookup_insert_eq.
Qed.

Lemma C4_can_generate_witness :
  let user date := CustomUser.mk 1 false 0 30 (Float.of_int 0) 0 (Some date) 10 in
  (PremiumLimitChecker.can_generate 20000 (user 20000%Z) World.empty).1.1.1 = false /\
  (PremiumLimitChecker.can_generate 20000 (user 19999%Z) World.empty).1.1.1 = true /\
  CustomUser.daily_generated_count
    (PremiumLimitChecker.can_generate 20000 (user 19999%Z) World.empty).1.2 = 0%Z.
Proof.
  intros user. split.
  - apply (C4_can_generate 20000 (user 20000%Z) World.empty); reflexivity.
  - destruct (proj2 (C4_can_generate 20000 (user 19999%Z) World.empty) eq_refl)
      as (_ & _ & _ & _ & Hyesterday).
    destruct (Hyesterday eq_refl eq_refl) as (Hpass & Hcount & _).
    exact (conj Hpass Hcount).
Defined.

(* ===================================================================== *)
(** * QuestionGenerator.generate_and_validate *)
(* ===================================================================== *)

Section GenerateAndValidate.
Import QuestionGenerator.
Variable source : CompletionSource.
Variable req : ChatRequest.
Variable past_questions : option (list Question.t).
Variable max_questions : nat.

(** The [for] loop collects the accepted blocks, up to [max_questions]. *)
Lemma scan_blocks_take (questions_data valid_questions : list pystr) :
  length valid_questions < max_questions ->
  scan_blocks past_questions max_questions questions_data valid_questions
  = take max_questions
      (valid_questions ++ List.filter (accepts past_questions) questions_data).
Proof.
  revert valid_questions.
  induction questions_data as [|question_data rest IH]; intros valid Hlt.
  - simpl. rewrite app_nil_r, take_ge; [done|lia].
  - simpl. destruct (accepts past_questions question_data).
    + destruct (Nat.leb_spec max_questions (length (valid ++ [question_data])))
        as [Hfull|Hroom].
      * rewrite length_app in Hfull. simpl in Hfull.
        rewrite (cons_middle question_data valid (List.filter _ rest)), app_assoc.
        rewrite take_app_le by (rewrite length_app; simpl; lia).
        rewrite take_ge; [done|rewrite length_app; simpl; lia].
      * rewrite IH by done. by rewrite <- app_assoc.
    + by apply IH.
Qed.

Lemma attempts_insufficient (remaining : nat) :
  forall (valid_questions : list pystr) (w : World.t),
  length (valid_questions
          ++ concat (valid_blocks past_questions
                       <$> responses source req remaining (World.llm_log w)))
  < max_questions ->
  attempts source req past_questions max_questions remaining valid_questions w
  = (valid_questions
     ++ concat (valid_blocks past_questions
                  <$> responses source req remaining (World.llm_log w)),
     World.set_llm_log (World.llm_log w ++ replicate remaining req) w).
Proof.
  induction remaining as [|remaining IH]; intros valid w Hlt.
  - simpl. rewrite !app_nil_r. by destruct w.
  - cbn [attempts responses fmap list_fmap concat] in *.
    rewrite app_assoc in Hlt.
    assert (Hvalid : length valid < max_questions).
    { rewrite !length_app in Hlt. lia. }
    destruct (Nat.leb_spec max_questions (length valid)) as [?|_]; [lia|].
    unfold Orm.chat_completion. rewrite scan_blocks_take by done.
    fold (valid_blocks past_questions (source (World.llm_log w) req)).
    assert (Hstep : length (valid ++ valid_blocks past_questions
                                       (source (World.llm_log w) req))
                    < max_questions).
    { rewrite length_app in Hlt. lia. }
    rewrite take_ge by lia.
    destruct (Nat.leb_spec max_questions
                (length (valid ++ valid_blocks past_questions
                                    (source (World.llm_log w) req))))
      as [?|_]; [lia|].
    rewrite IH by done. simpl. rewrite <- !app_assoc. done.
Qed.

Lemma attempts_first_suffices (remaining : nat) (w : World.t) :
  0 < remaining -> 0 < max_questions ->
  max_questions
  <= length (valid_blocks past_questions (source (World.llm_log w) req)) ->
  attempts source req past_questions max_questions remaining [] w
  = (take max_questions
       (valid_blocks past_questions (source (World.llm_log w) req)),
     World.set_llm_log (World.llm_log w ++ [req]) w).
Proof.
  intros Hrem Hmax Hfirst. destruct remaining as [|remaining]; [lia|].
  cbn [attempts]. destruct (Nat.leb_spec max_questions (length (@nil pystr)))
    as [Hle|_]; [simpl in Hle; lia|].
  unfold Orm.chat_completion. rewrite scan_blocks_take by (simpl; lia).
  rewrite app_nil_l.
  fold (valid_blocks past_questions (source (World.llm_log w) req)).
  rewrite length_take_le by done.
  destruct (Nat.leb_spec max_questions max_questions) as [_|?]; [done|lia].
Qed.

End GenerateAndValidate.

(* ===================================================================== *)
(** * QuestionPersistenceService.save_to_session *)
(* ===================================================================== *)

Section SaveToSession.
Import QuestionPersistenceService.

Lemma save_each_rows (user : CustomUser.t) (theme : pystr)
    (difficulty : option pystr) (items : list pystr) :
  forall (i : Z) (w : World.t) (entries : list SessionEntry.t),
  World.session_all_questions w = Some entries ->
  save_each user theme difficulty i items w
  = World.mk (World.users w)
      (World.questions w
       ++ imap (fun n text =>
                  Question.mk (World.next_question_id w + Z.of_nat n)
                    (CustomUser.id user) theme text None None None None
                    (Some (i + Z.of_nat n)%Z) (given difficulty)) items)
      (World.next_question_id w + Z.of_nat (length items))
      (Some (entries
             ++ imap (fun n text =>
                        SessionEntry.mk (World.next_question_id w + Z.of_nat n)
                          text theme (i + Z.of_nat n)%Z) items))
      (World.session_modified w) (World.llm_log w).
Proof.
  induction items as [|text items IH]; intros i w entries Hsession.
  - simpl. rewrite !app_nil_r, Z.add_0_r. destruct w. simpl in *. by subst.
  - cbn [save_each]. unfold Orm.create_question. cbn [Question.id].
    erewrite IH; last first.
    { simpl. rewrite Hsession. reflexivity. }
    simpl. rewrite !Z.add_0_r, <- !app_assoc. simpl.
    f_equal.
    + do 2 f_equal. apply imap_ext. intros n x _. simpl.
      f_equal; [lia|]. f_equal. lia.
    + lia.
    + do 3 f_equal. apply imap_ext. intros n x _. simpl. f_equal; lia.
Qed.

Lemma save_to_session_rows (user : CustomUser.t) (valid_questions : list pystr)
    (theme : pystr) (difficulty : option pystr) (w : World.t) :
  let r := save_to_session user valid_questions theme difficulty w in
  World.questions r.2
  = World.questions w
    ++ numbered_rows (CustomUser.id user) theme (given difficulty)
         (World.next_question_id w) (take 10 valid_questions) /\
  World.session_all_questions r.2
  = Some (numbered_entries theme (World.next_question_id w)
            (take 10 valid_questions)) /\
  World.llm_log r.2 = World.llm_log w /\
  r.1 = CustomUser.set_generate_count
          (CustomUser.generate_count user + Z.of_nat (length valid_questions))
          user /\
  World.users r.2 = <[CustomUser.id user := r.1]> (World.users w).
Proof.
  unfold save_to_session.
  rewrite (save_each_rows user theme difficulty (take 10 valid_questions) 1
             (World.set_session_all_questions (Some []) w) []) by done.
  simpl. repeat split.
  - f_equal. apply imap_ext. intros n x _. f_equal. f_equal. lia.
  - f_equal. apply imap_ext. intros n x _. f_equal. lia.
Qed.

End SaveToSession.

(* ===================================================================== *)
(** * QuestionGenerationOrchestrator *)
(* ===================================================================== *)

Section Orchestrator.
Import QuestionGenerationOrchestrator.
Variable source : CompletionSource.

Lemma can_generate_id (today : Z) (user : CustomUser.t) (w : World.t) :
  CustomUser.id (PremiumLimitChecker.can_generate today user w).1.2
  = CustomUser.id user.
Proof.
  unfold PremiumLimitChecker.can_generate.
  destruct (CustomUser.is_premium user); [done|].
  destruct (negb _); simpl; [done|].
  by destruct (Z.leb _ _).
Qed.

(** A refusal is only ever given on the user and the state as they were. *)
Lemma can_generate_refusal (today : Z) (user : CustomUser.t) (w : World.t)
    (message : option pystr) :
  (PremiumLimitChecker.can_generate today user w).1.1 = (false, message) ->
  PremiumLimitChecker.can_generate today user w = ((false, message), user, w) /\
  message = Some PremiumLimitChecker.limit_message.
Proof.
  unfold PremiumLimitChecker.can_generate, PremiumLimitChecker.DAILY_LIMIT.
  destruct (CustomUser.is_premium user); [done|].
  destruct (negb _); simpl.
  - done.
  - destruct (Z.leb 10 (CustomUser.daily_generated_count user)); simpl; [|done].
    by intros [= <-].
Qed.

Lemma generate_from_text_passed (today : Z) (user user1 : CustomUser.t)
    (theme difficulty : pystr) (w w1 : World.t) :
  PremiumLimitChecker.can_generate today user w = ((true, None), user1, w1) ->
  generate_from_text source today user theme difficulty w
  = let r := QuestionGenerator.attempts source (text_request theme difficulty)
               (Some (Orm.filter_user_theme_20 (CustomUser.id user1) theme w1))
               10 5 [] w1 in
    if length r.1 <? 10 then ((None, Some insufficient_message), user1, r.2)
    else
      let u := PremiumLimitChecker.update_daily_count user1
                 (Z.of_nat (length r.1)) r.2 in
      let s := QuestionPersistenceService.save_to_session u.1 r.1 theme
                 (Some difficulty) u.2 in
      ((Some theme, None), s.1, s.2).
Proof.
  intros Hpass. unfold generate_from_text. rewrite Hpass.
  cbn [negb]. cbv zeta.
  unfold QuestionGenerator.generate_and_validate, text_request,
    PromptBuilder.build_text_prompt.
  destruct (QuestionGenerator.attempts _ _ _ _ _ _ _) as [valid w2]. simpl.
  destruct (length valid <? 10); [done|].
  destruct (PremiumLimitChecker.update_daily_count _ _ _) as [user2 w3].
  reflexivity.
Qed.

Lemma generate_from_file_processed (user : CustomUser.t)
    (uploaded_file : FileProcessor.UploadedFile) (extracted_text : pystr)
    (w : World.t) :
  FileProcessor.process_file uploaded_file = Ok extracted_text ->
  generate_from_file source user uploaded_file w
  = let r := QuestionGenerator.attempts source (file_request extracted_text)
               None 10 5 [] w in
    if length r.1 <? 10 then Ok ((None, Some insufficient_message), user, r.2)
    else
      let s := QuestionPersistenceService.save_to_session user r.1
                 (take 10 extracted_text) None r.2 in
      Ok ((Some (take 10 extracted_text), None), s.1, s.2).
Proof.
  intros Hfile. unfold generate_from_file. rewrite Hfile.
  cbn [mbind result_bind]. cbv zeta.
  unfold QuestionGenerator.generate_and_validate, file_request,
    PromptBuilder.build_file_prompt.
  destruct (QuestionGenerator.attempts _ _ _ _ _ _ _) as [valid w2]. simpl.
  destruct (length valid <? 10); reflexivity.
Qed.

Lemma update_daily_count_frame (user : CustomUser.t) (count : Z) (w : World.t) :
  let r := PremiumLimitChecker.update_daily_count user count w in
  CustomUser.id r.1 = CustomUser.id user /\
  World.questions r.2 = World.questions w /\
  World.next_question_id r.2 = World.next_question_id w /\
  World.llm_log r.2 = World.llm_log w.
Proof.
  unfold PremiumLimitChecker.update_daily_count.
  by destruct (negb _).
Qed.

End Orchestrator.

Example mock_responses :
  length (valid_blocks None Mock.twelve_blocks) = 12 /\
  valid_blocks None Mock.one_block = [Mock.block (py "1")] /\
  FileProcessor.process_file Mock.pdf = Ok (py "Pythonの基礎について。変数と型。") /\
  FileProcessor.extract_text_from_image
    {| FileProcessor.content_type := py "image/png";
       FileProcessor.image_size := (640%Z, 480%Z);
       FileProcessor.pdf_pages := [] |} = py "画像のサイズは640x480です。".
Proof. repeat split; vm_compute; reflexivity. Qed.

(** C2: in both modes, when the blocks that pass validation in the five
    responses the source would give are fewer than 10 in all, generation
    ends with the "no valid questions" message after five requests and
    leaves the tables and the session as they were after the gate; when the
    first response alone has 10 or more blocks that pass, one request is
    made and exactly the first 10 of them become the new question rows, in
    order, numbered 1 to 10 under the theme, and the session batch. *)
Theorem C2_generation_outcome
    (source : CompletionSource) (today : Z) (user : CustomUser.t)
    (theme difficulty : pystr) (uploaded_file : FileProcessor.UploadedFile)
    (w : World.t) :
  (forall user1 w1,
     PremiumLimitChecker.can_generate today user w = ((true, None), user1, w1) ->
     let past := Some (Orm.filter_user_theme_20 (CustomUser.id user1) theme w1) in
     let req := text_request theme difficulty in
     let first := valid_blocks past (source (World.llm_log w1) req) in
     (length (concat (valid_blocks past
                        <$> responses source req 5 (World.llm_log w1))) < 10 ->
      QuestionGenerationOrchestrator.generate_from_text source today user theme
        difficulty w
      = ((None, Some QuestionGenerationOrchestrator.insufficient_message),
         user1,
         World.set_llm_log (World.llm_log w1 ++ replicate 5 req) w1)) /\
     (10 <= length first ->
      exists user2 w2,
        QuestionGenerationOrchestrator.generate_from_text source today user
          theme difficulty w = ((Some theme, None), user2, w2) /\
        World.questions w2
        = World.questions w1
          ++ numbered_rows (CustomUser.id user) theme
               (QuestionPersistenceService.given (Some difficulty))
               (World.next_question_id w1) (take 10 first) /\
        length (take 10 first) = 10 /\
        World.session_all_questions w2
        = Some (numbered_entries theme (World.next_question_id w1)
                  (take 10 first)) /\
        World.llm_log w2 = World.llm_log w1 ++ [req])) /\
  (forall extracted_text,
     FileProcessor.process_file uploaded_file = Ok extracted_text ->
     let req := file_request extracted_text in
     let first := valid_blocks None (source (World.llm_log w) req) in
     (length (concat (valid_blocks None
                        <$> responses source req 5 (World.llm_log w))) < 10 ->
      QuestionGenerationOrchestrator.generate_from_file source user
        uploaded_file w
      = Ok ((None, Some QuestionGenerationOrchestrator.insufficient_message),
            user,
            World.set_llm_log (World.llm_log w ++ replicate 5 req) w)) /\
     (10 <= length first ->
      exists user2 w2,
        QuestionGenerationOrchestrator.generate_from_file source user
          uploaded_file w
        = Ok ((Some (take 10 extracted_text), None), user2, w2) /\
        World.questions w2
        = World.questions w
          ++ numbered_rows (CustomUser.id user) (take 10 extracted_text) None
               (World.next_question_id w) (take 10 first) /\
        length (take 10 first) = 10 /\
        World.session_all_questions w2
        = Some (numbered_entries (take 10 extracted_text)
                  (World.next_question_id w) (take 10 first)) /\
        World.llm_log w2 = World.llm_log w ++ [req])).
Proof.
  split.
  - intros user1 w1 Hpass past req first.
    rewrite (generate_from_text_passed source _ _ _ _ _ _ _ Hpass).
    fold past req. split.
    + intros Hfew.
      rewrite (attempts_insufficient source req past 10 5 [] w1) by done.
      cbn [fst snd app].
      by destruct (Nat.ltb_spec (length (concat (valid_blocks past
                     <$> responses source req 5 (World.llm_log w1)))) 10);
        [|lia].
    + intros Hfirst.
      rewrite (attempts_first_suffices source req past 10 5 w1) by (done || lia).
      cbn [fst snd]. fold first.
      assert (Hten : length (take 10 first) = 10) by by apply length_take_le.
      rewrite Hten. cbn [Nat.ltb Nat.leb].
      set (w2 := World.set_llm_log _ w1).
      destruct (update_daily_count_frame user1 (Z.of_nat 10) w2)
        as (Hid & Hquestions & Hnext & Hlog).
      set (u := PremiumLimitChecker.update_daily_count _ _ _) in *.
      destruct (save_to_session_rows u.1 (take 10 first) theme
                  (Some difficulty) u.2) as (Hrows & Hentries & Hlog' & _).
      eexists _, _. split; [reflexivity|].
      cbn [fst snd]. rewrite Hrows, Hentries, Hlog', Hid, Hquestions, Hnext, Hlog.
      rewrite take_take, Nat.min_id.
      pose proof (can_generate_id today user w) as Hid1.
      rewrite Hpass in Hid1. simpl in Hid1. rewrite Hid1.
      by repeat split.
  - intros extracted_text Hfile req first.
    rewrite (generate_from_file_processed source _ _ _ _ Hfile).
    fold req. split.
    + intros Hfew.
      rewrite (attempts_insufficient source req None 10 5 [] w) by done.
      cbn [fst snd app].
      by destruct (Nat.ltb_spec (length (concat (valid_blocks None
                     <$> responses source req 5 (World.llm_log w)))) 10);
        [|lia].
    + intros Hfirst.
      rewrite (attempts_first_suffices source req None 10 5 w) by (done || lia).
      cbn [fst snd]. fold first.
      assert (Hten : length (take 10 first) = 10) by by apply length_take_le.
      rewrite Hten. cbn [Nat.ltb Nat.leb].
      set (w2 := World.set_llm_log _ w).
      destruct (save_to_session_rows user (take 10 first)
                  (take 10 extracted_text) None w2)
        as (Hrows & Hentries & Hlog' & _).
      eexists _, _. split; [reflexivity|].
      rewrite Hrows, Hentries, Hlog'.
      rewrite take_take, Nat.min_id.
      by repeat split.
Qed.

(** A source whose every response has a single valid block fails in
    document mode after five requests; a source whose first response has
    twelve valid blocks gets its first ten persisted in topic mode. *)
Lemma C2_generation_outcome_witness :
  let source := Mock.constant Mock.twelve_blocks in
  let user1 := with_quota (Some 20000%Z) 0 Mock.user in
  let w1 := Orm.save_user user1 World.empty in
  let past :=
    Some (Orm.filter_user_theme_20 (CustomUser.id user1) (py "Python") w1) in
  let req := text_request (py "Python") (py "basic") in
  let first := valid_blocks past (source (World.llm_log w1) req) in
  QuestionGenerationOrchestrator.generate_from_file
    (Mock.constant Mock.one_block) Mock.user Mock.pdf World.empty
  = Ok ((None, Some QuestionGenerationOrchestrator.insufficient_message),
        Mock.user,
        World.set_llm_log
          (World.llm_log World.empty
           ++ replicate 5 (file_request (py "Pythonの基礎について。変数と型。")))
          World.empty) /\
  exists user2 w2,
    QuestionGenerationOrchestrator.generate_from_text source 20000 Mock.user
      (py "Python") (py "basic") World.empty
    = ((Some (py "Python"), None), user2, w2) /\
    World.questions w2
    = World.questions w1
      ++ numbered_rows (CustomUser.id Mock.user) (py "Python")
           (QuestionPersistenceService.given (Some (py "basic")))
           (World.next_question_id w1) (take 10 first) /\
    length (take 10 first) = 10.
Proof.
  intros source user1 w1 past req first.
  pose proof (C2_generation_outcome (Mock.constant Mock.one_block) 20000
                Mock.user (py "Python") (py "basic") Mock.pdf World.empty)
    as [_ Hfile].
  pose proof (C2_generation_outcome source 20000
                Mock.user (py "Python") (py "basic") Mock.pdf World.empty)
    as [Htext _].
  split.
  - apply (Hfile (py "Pythonの基礎について。変数と型。")).
    + vm_compute. reflexivity.
    + vm_compute. lia.
  - destruct (Htext user1 w1) as [_ Hfirst].
    + vm_compute. reflexivity.
    + destruct Hfirst as (user2 & w2 & Hrun & Hrows & Hten & _).
      * vm_compute. lia.
      * exists user2, w2. split; [exact Hrun|]. split; [exact Hrows|exact Hten].
Defined.

(** C8: in topic mode a refusal of the limiter is returned as it is: the
    error is the limiter's message, and the user object and the whole state
    (both tables, the session batch, the log of completion requests) are the
    ones the call started with.  Document mode does not look at the quota:
    run with any other quota fields it gives the same result on the same
    tables, session and log, and the user keeps its quota fields. *)
Theorem C8_limiter_gate
    (source : CompletionSource) (today : Z) (user : CustomUser.t)
    (theme difficulty : pystr) (uploaded_file : FileProcessor.UploadedFile)
    (w : World.t) :
  (forall message,
     (PremiumLimitChecker.can_generate today user w).1.1 = (false, message) ->
     QuestionGenerationOrchestrator.generate_from_text source today user theme
       difficulty w = ((None, message), user, w) /\
     message = Some PremiumLimitChecker.limit_message) /\
  (forall date count,
     match QuestionGenerationOrchestrator.generate_from_file source user
             uploaded_file w,
           QuestionGenerationOrchestrator.generate_from_file source
             (with_quota date count user) uploaded_file w with
     | Ok o, Ok o' =>
       o'.1.1 = o.1.1 /\ o'.1.2 = with_quota date count o.1.2 /\
       World.questions o'.2 = World.questions o.2 /\
       World.session_all_questions o'.2 = World.session_all_questions o.2 /\
       World.llm_log o'.2 = World.llm_log o.2 /\
       CustomUser.daily_generated_count o.1.2
       = CustomUser.daily_generated_count user /\
       CustomUser.last_generated_date o.1.2
       = CustomUser.last_generated_date user
     | Raise e, Raise e' => e = e'
     | _, _ => False
     end).
Proof.
  split.
  - intros message Hrefused.
    destruct (can_generate_refusal today user w message Hrefused) as [Hsame Hmsg].
    split; [|done].
    unfold QuestionGenerationOrchestrator.generate_from_text. by rewrite Hsame.
  - intros date count.
    destruct (FileProcessor.process_file uploaded_file) as [text|e] eqn:Hfile.
    + rewrite !(generate_from_file_processed source _ _ _ _ Hfile). cbv zeta.
      destruct (length _ <? 10); [by destruct user|].
      set (w2 := (QuestionGenerator.attempts _ _ _ _ _ _ _).2).
      set (valid := (QuestionGenerator.attempts _ _ _ _ _ _ _).1).
      destruct (save_to_session_rows user valid (take 10 text) None w2)
        as (Hrows & Hentries & Hlog & Huser & _).
      destruct (save_to_session_rows (with_quota date count user) valid
                  (take 10 text) None w2)
        as (Hrows' & Hentries' & Hlog' & Huser' & _).
      cbn [fst snd]. rewrite Hrows, Hentries, Hlog, Huser.
      rewrite Hrows', Hentries', Hlog', Huser'.
      by destruct user.
    + unfold QuestionGenerationOrchestrator.generate_from_file.
      by rewrite Hfile.
Qed.

(** A user who has used up today's ten questions: topic mode refuses and
    changes nothing, with a source that would have answered well. *)
Lemma C8_limiter_gate_witness :
  let user := CustomUser.mk 1 false 3 30 (Float.of_int 10) 0 (Some 20000%Z) 10 in
  QuestionGenerationOrchestrator.generate_from_text
    (Mock.constant Mock.twelve_blocks) 20000 user (py "Python") (py "basic")
    World.empty
  = ((None, Some PremiumLimitChecker.limit_message), user, World.empty).
Proof.
  intros user.
  apply (proj1 (C8_limiter_gate (Mock.constant Mock.twelve_blocks) 20000 user
                  (py "Python") (py "basic") Mock.pdf World.empty)
           (Some PremiumLimitChecker.limit_message)).
  reflexivity.
Defined.

(** The same user in document mode: the quota is not consulted and the ten
    questions are generated. *)
Example document_mode_ignores_quota :
  let user := CustomUser.mk 1 false 3 30 (Float.of_int 10) 0 (Some 20000%Z) 10 in
  exists user' w',
    QuestionGenerationOrchestrator.generate_from_file
      (Mock.constant Mock.twelve_blocks) user Mock.pdf World.empty
    = Ok ((Some (py "Pythonの基礎に"), None), user', w') /\
    CustomUser.daily_generated_count user' = 10%Z /\
    CustomUser.generate_count user' = 40%Z /\
    length (World.questions w') = 10.
Proof. eexists _, _. vm_compute. repeat split; reflexivity. Qed.

(* ===================================================================== *)
(** * difflib: the index of [b] *)
(* ===================================================================== *)

Section ChainB.

Lemma index_elements_default (b : pystr) :
  forall (i : nat) (m : gmap N (list nat)) (x : N),
  default [] (difflib.index_elements i b m !! x)
  = default [] (m !! x) ++ positions x i b.
Proof.
  induction b as [|y b IH]; intros i m x; simpl.
  - by rewrite app_nil_r.
  - rewrite IH. destruct (N.eqb_spec y x) as [->|Hne].
    + rewrite lookup_insert_eq. simpl. by rewrite <- app_assoc.
    + by rewrite lookup_insert_ne.
Qed.

Lemma positions_spec (x : N) (b : pystr) :
  forall i j, j ∈ positions x i b <-> i <= j /\ b !! (j - i) = Some x.
Proof.
  induction b as [|y b IH]; intros i j; simpl.
  - split; [by intros ?%elem_of_nil|]. by intros [_ ?].
  - assert (Hshift : i <= j /\ (y :: b) !! (j - i) = Some x
                     <-> (j = i /\ y = x) \/ (S i <= j /\ b !! (j - S i) = Some x)).
    { destruct (decide (j = i)) as [->|Hne].
      - rewrite Nat.sub_diag. simpl. split.
        + intros [_ [= ->]]. by left.
        + intros [[_ ->]|[? _]]; [done|lia].
      - split.
        + intros [Hle Hlook]. right. split; [lia|].
          replace (j - i) with (S (j - S i)) in Hlook by lia. done.
        + intros [[? _]|[Hle Hlook]]; [done|]. split; [lia|].
          replace (j - i) with (S (j - S i)) by lia. done. }
    rewrite Hshift. destruct (N.eqb_spec y x) as [->|Hne].
    + rewrite elem_of_cons, IH. intuition.
    + rewrite IH. intuition congruence.
Qed.

Lemma positions_lower (x : N) (b : pystr) (i j : nat) :
  j ∈ positions x i b -> i <= j.
Proof. by intros [? _]%positions_spec. Qed.

(** The index lists are strictly increasing. *)
Lemma positions_increasing (x : N) (b : pystr) :
  forall i, StronglySorted lt (positions x i b).
Proof.
  induction b as [|y b IH]; intros i; simpl; [constructor|].
  destruct (y =? x)%N; [|apply IH].
  constructor; [apply IH|]. apply Forall_forall. intros j Hj.
  apply positions_lower in Hj. lia.
Qed.

(** An index list is that of all occurrences, or empty. *)
Lemma indices_cases (b : pystr) (x : N) :
  indices b x = positions x 0 b \/ indices b x = [].
Proof.
  unfold indices, difflib.chain_b.
  pose proof (index_elements_default b 0 ∅ x) as Hraw.
  rewrite lookup_empty in Hraw. simpl in Hraw.
  destruct (200 <=? length b); [|by left].
  destruct (filter _ _ !! x) as [js|] eqn:Hfilter; [|by right].
  apply map_lookup_filter_Some in Hfilter as [Hlookup _].
  rewrite Hlookup in Hraw. by left.
Qed.

Lemma indexed_indices (b : pystr) (x : N) :
  indexed b x = true -> indices b x = positions x 0 b.
Proof.
  unfold indexed. destruct (indices_cases b x) as [-> | ->]; done.
Qed.

Lemma not_indexed_indices (b : pystr) (x : N) :
  indexed b x = false -> indices b x = [].
Proof. unfold indexed. by destruct (indices b x). Qed.

Lemma indices_sound (b : pystr) (x : N) (j : nat) :
  j ∈ indices b x -> b !! j = Some x.
Proof.
  destruct (indices_cases b x) as [->| ->]; [|by intros ?%elem_of_nil].
  intros [_ Hj]%positions_spec. by rewrite Nat.sub_0_r in Hj.
Qed.

End ChainB.

(* ===================================================================== *)
(** * difflib: [find_longest_match] stays inside its ranges *)
(* ===================================================================== *)

Section FindLongestMatchRange.
Variables a b : pystr.
Variables alo ahi blo bhi : nat.

Lemma j2len_get_pred_bound (n : nat) (j2len : gmap nat nat) (j : nat) :
  lengths_below n blo j2len -> blo <= j ->
  difflib.j2len_get_pred j2len j + 1 <= n + 1 /\
  difflib.j2len_get_pred j2len j + 1 <= j + 1 - blo.
Proof.
  intros Hbelow Hj. destruct j as [|j']; simpl; [lia|].
  destruct (j2len !! j') as [k0|] eqn:Hk0; simpl; [|lia].
  destruct (Hbelow j' k0 Hk0). lia.
Qed.

Lemma scan_row_within (i : nat) (j2len : gmap nat nat) (js : list nat) :
  alo <= i -> i < ahi -> lengths_below (i - alo) blo j2len ->
  forall (newj2len : gmap nat nat) (best : difflib.Match),
  lengths_below (i + 1 - alo) blo newj2len -> within alo ahi blo bhi best ->
  lengths_below (i + 1 - alo) blo
    (difflib.scan_row blo bhi i j2len js newj2len best).1 /\
  within alo ahi blo bhi (difflib.scan_row blo bhi i j2len js newj2len best).2.
Proof.
  intros Hlo Hhi Hprev. induction js as [|j js IH]; intros newj2len best Hnew Hbest.
  - done.
  - simpl. destruct (Nat.ltb_spec j blo) as [_|Hjlo]; [by apply IH|].
    destruct (Nat.leb_spec bhi j) as [_|Hjhi]; [done|].
    destruct (j2len_get_pred_bound (i - alo) j2len j Hprev Hjlo) as [Hk1 Hk2].
    set (k := difflib.j2len_get_pred j2len j + 1) in *.
    apply IH.
    + intros j0 k0. destruct (decide (j = j0)) as [<-|Hne].
      * rewrite lookup_insert_eq. intros [= <-]. lia.
      * rewrite lookup_insert_ne by done. apply Hnew.
    + destruct (difflib.size best <? k); [|done].
      unfold within. simpl. lia.
Qed.

Lemma scan_rows_within (b2j : gmap N (list nat)) (n : nat) :
  forall (i : nat) (j2len : gmap nat nat) (best : difflib.Match),
  alo <= i -> i + n <= ahi -> lengths_below (i - alo) blo j2len ->
  within alo ahi blo bhi best ->
  within alo ahi blo bhi
    (difflib.scan_rows a b2j blo bhi (seq i n) j2len best).
Proof.
  induction n as [|n IH]; intros i j2len best Hlo Hhi Hprev Hbest; [done|].
  simpl.
  set (js := match a !! i with Some elt => default [] (b2j !! elt) | None => [] end).
  destruct (scan_row_within i j2len js Hlo ltac:(lia) Hprev ∅ best) as [Hnew Hbest'].
  { intros j k. by rewrite lookup_empty. }
  { done. }
  destruct (difflib.scan_row blo bhi i j2len js ∅ best) as [newj2len best'].
  apply IH; [lia|lia| |done].
  simpl in Hnew. by replace (S i - alo) with (i + 1 - alo) by lia.
Qed.

Lemma extend_left_within (junk : bool) (besti : nat) :
  forall bestj bestsize,
  within alo ahi blo bhi (besti, bestj, bestsize) ->
  within alo ahi blo bhi
    (difflib.extend_left a b junk alo blo besti bestj bestsize).
Proof.
  induction besti as [|i' IH]; intros bestj bestsize Hbest; [done|].
  simpl. destruct bestj as [|j']; [done|].
  destruct (_ && _) eqn:Hguard; [|done].
  apply IH. unfold within in *. simpl in *.
  repeat (apply andb_prop in Hguard as [Hguard ?]).
  apply Nat.ltb_lt in Hguard.
  match goal with H : (blo <? S j') = true |- _ => apply Nat.ltb_lt in H end.
  lia.
Qed.

Lemma extend_right_within (junk : bool) (besti bestj : nat) (room : nat) :
  forall bestsize,
  besti + bestsize + room <= ahi -> bestj + bestsize <= bhi ->
  let bestsize' :=
    difflib.extend_right a b junk bhi besti bestj room bestsize in
  bestsize <= bestsize' /\ besti + bestsize' <= ahi /\ bestj + bestsize' <= bhi.
Proof.
  induction room as [|room IH]; intros bestsize Ha Hb; simpl; [lia|].
  destruct (_ && _) eqn:Hguard; [|lia].
  repeat (apply andb_prop in Hguard as [Hguard ?]).
  apply Nat.ltb_lt in Hguard.
  destruct (IH (S bestsize)) as (? & ? & ?); lia.
Qed.

Lemma find_longest_match_within (b2j : gmap N (list nat)) :
  alo <= ahi -> blo <= bhi ->
  within alo ahi blo bhi (difflib.find_longest_match a b b2j alo ahi blo bhi).
Proof.
  intros Ha Hb. unfold difflib.find_longest_match.
  pose proof (scan_rows_within b2j (ahi - alo) alo ∅ (alo, blo, 0)) as H1.
  destruct (difflib.scan_rows _ _ _ _ _ _ _) as [[i1 j1] k1].
  assert (Hw1 : within alo ahi blo bhi (i1, j1, k1)).
  { apply H1; [lia|lia| |unfold within; simpl; lia].
    intros j k. by rewrite lookup_empty. }
  pose proof (extend_left_within false i1 j1 k1 Hw1) as Hw2.
  destruct (difflib.extend_left a b false alo blo i1 j1 k1) as [[i2 j2] k2].
  destruct (extend_right_within false i2 j2 (ahi - (i2 + k2)) k2)
    as (Hk3 & Ha3 & Hb3).
  { unfold within in Hw2. simpl in Hw2. lia. }
  { unfold within in Hw2. simpl in Hw2. lia. }
  set (k3 := difflib.extend_right a b false bhi i2 j2 (ahi - (i2 + k2)) k2) in *.
  assert (Hw3 : within alo ahi blo bhi (i2, j2, k3)).
  { unfold within in *. simpl in *. lia. }
  pose proof (extend_left_within true i2 j2 k3 Hw3) as Hw4.
  destruct (difflib.extend_left a b true alo blo i2 j2 k3) as [[i4 j4] k4].
  destruct (extend_right_within true i4 j4 (ahi - (i4 + k4)) k4)
    as (Hk5 & Ha5 & Hb5).
  { unfold within in Hw4. simpl in Hw4. lia. }
  { unfold within in Hw4. simpl in Hw4. lia. }
  unfold within in *. simpl in *. lia.
Qed.

End FindLongestMatchRange.

(* ===================================================================== *)
(** * difflib: the queue loop ends within its bound *)
(* ===================================================================== *)

Section MatchQueue.
Variables a b : pystr.
Variable b2j : gmap N (list nat).

Lemma queue_weight_cons (alo ahi blo bhi : nat)
    (queue : list (nat * nat * nat * nat)) :
  queue_weight ((alo, ahi, blo, bhi) :: queue)
  = 2 * (ahi - alo) + 1 + queue_weight queue.
Proof. reflexivity. Qed.

Lemma match_queue_enough_fuel (fuel : nat) :
  forall (queue : list (nat * nat * nat * nat)) (blocks : list difflib.Match),
  Forall range_ok queue -> queue_weight queue <= fuel ->
  is_Some (difflib.match_queue a b b2j fuel queue blocks).
Proof.
  induction fuel as [|fuel IH]; intros queue blocks Hok Hweight.
  - destruct queue as [|[[[alo ahi] blo] bhi] queue]; [by eexists|].
    rewrite queue_weight_cons in Hweight. lia.
  - destruct queue as [|[[[alo ahi] blo] bhi] queue]; [by eexists|].
    apply Forall_cons in Hok as [[Ha Hb] Hok]. simpl in Ha, Hb.
    rewrite queue_weight_cons in Hweight.
    cbn [difflib.match_queue].
    pose proof (find_longest_match_within a b alo ahi blo bhi b2j Ha Hb) as Hw.
    destruct (difflib.find_longest_match a b b2j alo ahi blo bhi) as [[i j] k].
    unfold within in Hw. simpl in Hw.
    destruct (Nat.eqb_spec k 0) as [_|Hk]; [apply IH; [done|lia]|].
    apply IH.
    + destruct (Nat.ltb_spec alo i), (Nat.ltb_spec blo j),
        (Nat.ltb_spec (i + k) ahi), (Nat.ltb_spec (j + k) bhi); simpl;
        repeat (apply Forall_cons; split; [unfold range_ok; simpl; lia|]);
        done.
    + destruct (Nat.ltb_spec alo i), (Nat.ltb_spec blo j),
        (Nat.ltb_spec (i + k) ahi), (Nat.ltb_spec (j + k) bhi); simpl;
        rewrite ?queue_weight_cons; lia.
Qed.

End MatchQueue.

(** The bound of [get_matching_blocks] is never the reason the loop stops. *)
Lemma match_queue_terminates (a b : pystr) :
  is_Some (difflib.match_queue a b (difflib.chain_b b) (2 * length a + 1)
             [(0, length a, 0, length b)] []).
Proof.
  apply match_queue_enough_fuel.
  - apply Forall_cons. split; [unfold range_ok; simpl; lia|done].
  - unfold queue_weight. simpl. lia.
Qed.

(* ===================================================================== *)
(** * difflib: texts without a common character *)
(* ===================================================================== *)

Section Unrelated.
Variables a b : pystr.
Hypothesis Hunrelated : unrelated a b.

Lemma unrelated_indices (i : nat) (x : N) :
  a !! i = Some x -> indices b x = [].
Proof.
  intros Hi. destruct (indices b x) as [|j js] eqn:Hjs; [done|].
  assert (Hj : b !! j = Some x).
  { apply indices_sound. rewrite Hjs. apply elem_of_cons. by left. }
  exfalso. apply (Hunrelated x).
  - by apply list_elem_of_lookup_2 in Hi.
  - by apply list_elem_of_lookup_2 in Hj.
Qed.

Lemma unrelated_same_at (i j : nat) : difflib.same_at a b i j = false.
Proof.
  unfold difflib.same_at.
  destruct (a !! i) as [x|] eqn:Hi; [|done].
  destruct (b !! j) as [y|] eqn:Hj; [|done].
  apply N.eqb_neq. intros ->. apply (Hunrelated y).
  - by apply list_elem_of_lookup_2 in Hi.
  - by apply list_elem_of_lookup_2 in Hj.
Qed.

Lemma unrelated_scan_rows (blo bhi : nat) (rows : list nat) :
  forall (j2len : gmap nat nat) (best : difflib.Match),
  difflib.scan_rows a (difflib.chain_b b) blo bhi rows j2len best = best.
Proof.
  induction rows as [|i rows IH]; intros j2len best; [done|].
  simpl. destruct (a !! i) as [x|] eqn:Hi.
  - fold (indices b x). rewrite (unrelated_indices i x Hi). simpl. apply IH.
  - simpl. apply IH.
Qed.

Lemma unrelated_extend_left (junk : bool) (alo blo besti bestj bestsize : nat) :
  difflib.extend_left a b junk alo blo besti bestj bestsize
  = (besti, bestj, bestsize).
Proof.
  destruct besti as [|i']; [done|]. destruct bestj as [|j']; [done|].
  simpl. rewrite unrelated_same_at. by rewrite andb_false_r.
Qed.

Lemma unrelated_extend_right (junk : bool) (bhi besti bestj room bestsize : nat) :
  difflib.extend_right a b junk bhi besti bestj room bestsize = bestsize.
Proof.
  destruct room as [|room]; [done|].
  simpl. rewrite unrelated_same_at. by rewrite andb_false_r.
Qed.

Lemma unrelated_find_longest_match (alo ahi blo bhi : nat) :
  difflib.find_longest_match a b (difflib.chain_b b) alo ahi blo bhi
  = (alo, blo, 0).
Proof.
  unfold difflib.find_longest_match.
  rewrite unrelated_scan_rows.
  repeat (rewrite unrelated_extend_left || rewrite unrelated_extend_right
          || cbv zeta beta iota).
  reflexivity.
Qed.

Lemma unrelated_matches : difflib.matches a b = 0.
Proof.
  unfold difflib.matches, difflib.get_matching_blocks.
  replace (2 * length a + 1) with (S (2 * length a)) by lia.
  cbn [difflib.match_queue]. rewrite unrelated_find_longest_match.
  cbn [Nat.eqb]. by destruct (2 * length a).
Qed.

End Unrelated.

(* ===================================================================== *)
(** * difflib: a text matched against itself *)
(* ===================================================================== *)

Section Identical.
Variable s : pystr.
Variables lo hi : nat.

Lemma run_indexed (i : nat) (x : N) :
  lo <= i -> s !! i = Some x -> indexed s x = true ->
  run s lo i = S (run_before s lo i).
Proof.
  intros Hi Hx Hidx. destruct i as [|i']; simpl; rewrite Hx, Hidx.
  - by destruct (Nat.leb_spec lo 0); [|lia].
  - by destruct (Nat.leb_spec lo (S i')); [|lia].
Qed.

Lemma run_not_indexed (i : nat) (x : N) :
  s !! i = Some x -> indexed s x = false -> run s lo i = 0.
Proof.
  intros Hx Hidx. destruct i as [|i']; simpl; rewrite Hx, Hidx;
    by rewrite andb_false_r.
Qed.

Lemma j2len_get_pred_run (i j : nat) (j2len : gmap nat nat) (best : difflib.Match) :
  diagonal_state s lo i j2len best ->
  difflib.j2len_get_pred j2len j <= run_before s lo j /\
  difflib.j2len_get_pred j2len j <= run_before s lo i.
Proof.
  intros (_ & Hlen & _ & _). destruct j as [|j']; simpl; [lia|].
  destruct (j2len !! j') as [k0|] eqn:Hk0; simpl; [|lia].
  by apply Hlen.
Qed.

Section Row.
Variables (i : nat) (x : N).
Variable j2len : gmap nat nat.
Hypothesis Hi : lo <= i.
Hypothesis Hih : i < hi.
Hypothesis Hx : s !! i = Some x.
Hypothesis Hidx : indexed s x = true.

(** The indices before [i]: nothing there beats the best match. *)
Lemma scan_row_before (l1 : list nat) :
  forall (rest : list nat) (newj2len : gmap nat nat) (best : difflib.Match),
  Forall (fun j => j < i) l1 -> Forall (fun j => s !! j = Some x) l1 ->
  diagonal_state s lo i j2len best -> row_lengths s lo i newj2len ->
  exists newj2len',
    difflib.scan_row lo hi i j2len (l1 ++ rest) newj2len best
    = difflib.scan_row lo hi i j2len rest newj2len' best /\
    row_lengths s lo i newj2len'.
Proof using Hi Hih Hx Hidx.
  induction l1 as [|j l1 IH]; intros rest newj2len best Hlt Hsame Hstate Hnew.
  - by exists newj2len.
  - apply Forall_cons in Hlt as [Hj Hlt]. apply Forall_cons in Hsame as [Hjx Hsame].
    simpl. destruct (Nat.ltb_spec j lo) as [_|Hjlo]; [by apply IH|].
    destruct (Nat.leb_spec hi j) as [?|_]; [lia|].
    destruct (j2len_get_pred_run i j j2len best Hstate) as [Hk1 Hk2].
    pose proof (run_indexed j x Hjlo Hjx Hidx) as Hrunj.
    pose proof (run_indexed i x Hi Hx Hidx) as Hruni.
    destruct Hstate as (Hdiag & Hlen & Hpred & Hbest).
    pose proof (Hbest j Hjlo Hj) as Hbestj.
    set (k := difflib.j2len_get_pred j2len j + 1) in *.
    destruct (Nat.ltb_spec (difflib.size best) k) as [?|_]; [lia|].
    apply IH; [done|done|done|].
    intros j0 k0. destruct (decide (j = j0)) as [<-|Hne].
    + rewrite lookup_insert_eq. intros [= <-]. lia.
    + rewrite lookup_insert_ne by done. apply Hnew.
Qed.

(** The indices after [i], once the diagonal has been seen. *)
Lemma scan_row_after (l2 : list nat) :
  forall (newj2len : gmap nat nat) (best : difflib.Match),
  Forall (fun j => i < j) l2 -> Forall (fun j => s !! j = Some x) l2 ->
  (forall j, difflib.j2len_get_pred j2len j <= run_before s lo j /\
             difflib.j2len_get_pred j2len j <= run_before s lo i) ->
  row_lengths s lo i newj2len -> run s lo i <= difflib.size best ->
  (difflib.scan_row lo hi i j2len l2 newj2len best).2 = best /\
  row_lengths s lo i (difflib.scan_row lo hi i j2len l2 newj2len best).1 /\
  (difflib.scan_row lo hi i j2len l2 newj2len best).1 !! i = newj2len !! i.
Proof using Hi Hih Hx Hidx.
  induction l2 as [|j l2 IH]; intros newj2len best Hgt Hsame Hpred Hnew Hbest.
  - done.
  - apply Forall_cons in Hgt as [Hj Hgt]. apply Forall_cons in Hsame as [Hjx Hsame].
    simpl. destruct (Nat.ltb_spec j lo) as [_|Hjlo]; [by apply IH|].
    destruct (Nat.leb_spec hi j) as [_|_]; [done|].
    destruct (Hpred j) as [Hk1 Hk2].
    pose proof (run_indexed j x Hjlo Hjx Hidx) as Hrunj.
    pose proof (run_indexed i x Hi Hx Hidx) as Hruni.
    set (k := difflib.j2len_get_pred j2len j + 1) in *.
    destruct (Nat.ltb_spec (difflib.size best) k) as [?|_]; [lia|].
    destruct (IH (<[j:=k]> newj2len) best) as (Hr1 & Hr2 & Hr3);
      [done|done|done| |done|].
    + intros j0 k0. destruct (decide (j = j0)) as [<-|Hne].
      * rewrite lookup_insert_eq. intros [= <-]. lia.
      * rewrite lookup_insert_ne by done. apply Hnew.
    + split; [done|]. split; [done|].
      rewrite Hr3. apply lookup_insert_ne. lia.
Qed.

End Row.

End Identical.

Lemma sorted_split (i : nat) (js : list nat) :
  StronglySorted lt js -> i ∈ js ->
  exists l1 l2, js = l1 ++ i :: l2 /\
                Forall (fun j => j < i) l1 /\ Forall (fun j => i < j) l2.
Proof.
  induction 1 as [|y js Hsorted IH Hall]; intros Hin.
  - by apply elem_of_nil in Hin.
  - apply elem_of_cons in Hin as [->|Hin].
    + by exists [], js.
    + destruct (IH Hin) as (l1 & l2 & -> & H1 & H2).
      exists (y :: l1), l2. split; [done|]. split; [|done].
      apply Forall_cons. split; [|done].
      rewrite Forall_forall in Hall. apply Hall.
      apply elem_of_app. right. by left.
Qed.

Lemma run_below (s : pystr) (lo i : nat) : i < lo -> run s lo i = 0.
Proof.
  intros Hi. destruct i as [|i']; simpl.
  - by destruct (Nat.leb_spec lo 0); [lia|].
  - by destruct (Nat.leb_spec lo (S i')); [lia|].
Qed.

Lemma run_before_start (s : pystr) (lo : nat) : run_before s lo lo = 0.
Proof. destruct lo as [|lo']; [done|]. simpl. apply run_below. lia. Qed.

Lemma j2len_get_pred_empty (j : nat) : difflib.j2len_get_pred ∅ j = 0.
Proof. destruct j; simpl; [done|]. by rewrite lookup_empty. Qed.

Section IdenticalMatch.
Variable s : pystr.
Variables lo hi : nat.
Hypothesis Hlohi : lo <= hi.
Hypothesis Hhi : hi <= length s.

Lemma scan_row_diagonal (i : nat) (j2len : gmap nat nat) (best : difflib.Match) :
  lo <= i -> i < hi -> diagonal_state s lo i j2len best ->
  forall r,
  r = difflib.scan_row lo hi i j2len
        match s !! i with
        | Some elt => default [] (difflib.chain_b s !! elt)
        | None => []
        end ∅ best ->
  diagonal_state s lo (S i) r.1 r.2.
Proof.
  intros Hi Hih Hstate r ->.
  destruct (lookup_lt_is_Some_2 s i ltac:(lia)) as [x Hx]. rewrite Hx.
  fold (indices s x).
  destruct (indexed s x) eqn:Hidx.
  - rewrite (indexed_indices s x Hidx).
    assert (Hin : i ∈ positions x 0 s).
    { apply positions_spec. split; [lia|]. by rewrite Nat.sub_0_r. }
    destruct (sorted_split i _ (positions_increasing x s 0) Hin)
      as (l1 & l2 & Hjs & Hl1 & Hl2).
    assert (Hsame : Forall (fun j => s !! j = Some x) (l1 ++ i :: l2)).
    { rewrite <- Hjs. apply Forall_forall. intros j Hj.
      apply positions_spec in Hj as [_ Hj]. by rewrite Nat.sub_0_r in Hj. }
    rewrite Hjs. apply Forall_app in Hsame as [Hsame1 Hsame2].
    apply Forall_cons in Hsame2 as [_ Hsame2].
    destruct (scan_row_before s lo hi i x j2len Hi Hih Hx Hidx l1 (i :: l2) ∅ best
                Hl1 Hsame1 Hstate) as (new1 & -> & Hnew1).
    { intros j k. by rewrite lookup_empty. }
    simpl. destruct (Nat.ltb_spec i lo) as [?|_]; [lia|].
    destruct (Nat.leb_spec hi i) as [?|_]; [lia|].
    pose proof (run_indexed s lo i x Hi Hx Hidx) as Hruni.
    destruct Hstate as (Hdiag & Hlen & Hpred & Hbest).
    rewrite Hpred. replace (run_before s lo i + 1) with (run s lo i) by lia.
    set (best' := if difflib.size best <? run s lo i
                  then (i + 1 - run s lo i, i + 1 - run s lo i, run s lo i)
                  else best).
    assert (Hsize : difflib.size best <= difflib.size best'
                    /\ run s lo i <= difflib.size best'
                    /\ best'.1.1 = best'.1.2).
    { subst best'. destruct (Nat.ltb_spec (difflib.size best) (run s lo i));
        simpl; unfold difflib.size in *; simpl; lia. }
    destruct Hsize as (Hgrow & Hruns & Hdiag').
    destruct (scan_row_after s lo hi i x j2len Hi Hih Hx Hidx l2
                (<[i:=run s lo i]> new1) best' Hl2 Hsame2)
      as (Hr1 & Hr2 & Hr3).
    { intros j. destruct j as [|j']; simpl; [lia|].
      destruct (j2len !! j') as [k0|] eqn:Hk0; simpl; [|lia]. by apply Hlen. }
    { intros j0 k0. destruct (decide (i = j0)) as [<-|Hne].
      - rewrite lookup_insert_eq. intros [= <-]. lia.
      - rewrite lookup_insert_ne by done. apply Hnew1. }
    { done. }
    rewrite lookup_insert_eq in Hr3.
    split; [by rewrite Hr1|]. split; [|split].
    + intros j k Hjk. simpl. by apply Hr2.
    + simpl. by rewrite Hr3.
    + intros j Hjlo Hj. rewrite Hr1.
      destruct (decide (j = i)) as [->|Hne]; [done|].
      pose proof (Hbest j Hjlo ltac:(lia)). lia.
  - rewrite (not_indexed_indices s x Hidx). simpl.
    pose proof (run_not_indexed s lo i x Hx Hidx) as Hruni.
    destruct Hstate as (Hdiag & Hlen & Hpred & Hbest).
    split; [done|]. split; [|split].
    + intros j k. by rewrite lookup_empty.
    + simpl. by rewrite lookup_empty.
    + intros j Hjlo Hj. destruct (decide (j = i)) as [->|Hne]; [lia|].
      apply Hbest; lia.
Qed.

Lemma scan_rows_diagonal (n : nat) :
  forall (i : nat) (j2len : gmap nat nat) (best : difflib.Match),
  lo <= i -> i + n <= hi -> diagonal_state s lo i j2len best ->
  (difflib.scan_rows s (difflib.chain_b s) lo hi (seq i n) j2len best).1.1
  = (difflib.scan_rows s (difflib.chain_b s) lo hi (seq i n) j2len best).1.2.
Proof.
  induction n as [|n IH]; intros i j2len best Hi Hn Hstate.
  - simpl. by destruct Hstate.
  - simpl.
    pose proof (scan_row_diagonal i j2len best Hi ltac:(lia) Hstate _ eq_refl)
      as Hnext.
    destruct (difflib.scan_row lo hi i j2len _ ∅ best) as [newj2len best'].
    apply IH; [lia|lia|done].
Qed.

Lemma same_at_diagonal (i : nat) : i < length s -> difflib.same_at s s i i = true.
Proof.
  intros Hi. unfold difflib.same_at.
  destruct (lookup_lt_is_Some_2 s i Hi) as [x ->]. apply N.eqb_refl.
Qed.

Lemma extend_left_diagonal (besti : nat) :
  forall bestsize, lo <= besti -> besti <= length s ->
  difflib.extend_left s s false lo lo besti besti bestsize
  = (lo, lo, bestsize + (besti - lo)).
Proof.
  induction besti as [|i' IH]; intros bestsize Hlo Hlen.
  - simpl. replace lo with 0 by lia. by rewrite Nat.add_0_r.
  - simpl. destruct (Nat.ltb_spec lo (S i')) as [Hlt|Hge].
    + destruct (lookup_lt_is_Some_2 s i' ltac:(lia)) as [x Hx].
      rewrite Hx, same_at_diagonal by lia. simpl.
      rewrite IH by lia. f_equal. lia.
    + simpl. replace lo with (S i') by lia. f_equal. lia.
Qed.

Lemma extend_right_diagonal (room : nat) :
  forall bestsize, lo + bestsize + room <= hi ->
  difflib.extend_right s s false hi lo lo room bestsize = bestsize + room.
Proof.
  induction room as [|room IH]; intros bestsize Hroom; simpl; [lia|].
  destruct (Nat.ltb_spec (lo + bestsize) hi) as [_|?]; [|lia].
  destruct (lookup_lt_is_Some_2 s (lo + bestsize) ltac:(lia)) as [x Hx].
  rewrite Hx, same_at_diagonal by lia. simpl. rewrite IH by lia. lia.
Qed.

Lemma extend_left_junk_at_lo (bestsize : nat) :
  difflib.extend_left s s true lo lo lo lo bestsize = (lo, lo, bestsize).
Proof.
  destruct lo as [|lo']; [done|]. simpl.
  by destruct (Nat.ltb_spec (S lo') (S lo')); [lia|].
Qed.

(** Matching a stretch of a text against the same stretch finds the whole
    stretch. *)
Lemma find_longest_match_identical :
  difflib.find_longest_match s s (difflib.chain_b s) lo hi lo hi
  = (lo, lo, hi - lo).
Proof.
  unfold difflib.find_longest_match.
  pose proof (scan_rows_within s lo hi lo hi (difflib.chain_b s) (hi - lo) lo
                ∅ (lo, lo, 0)) as Hw.
  pose proof (scan_rows_diagonal (hi - lo) lo ∅ (lo, lo, 0)) as Hd.
  destruct (difflib.scan_rows _ _ _ _ _ _ _) as [[i1 j1] k1].
  assert (Hw1 : within lo hi lo hi (i1, j1, k1)).
  { apply Hw; [lia|lia| |unfold within; simpl; lia].
    intros j k. by rewrite lookup_empty. }
  assert (Hd1 : i1 = j1).
  { apply Hd; [lia|lia|].
    split; [done|]. split; [|split].
    - intros j k. by rewrite lookup_empty.
    - by rewrite run_before_start, j2len_get_pred_empty.
    - intros j ? ?. lia. }
  subst j1. unfold within in Hw1. simpl in Hw1.
  rewrite extend_left_diagonal by lia.
  rewrite extend_right_diagonal by lia.
  rewrite extend_left_junk_at_lo.
  replace (hi - (lo + _)) with 0 by lia. simpl. do 2 f_equal. lia.
Qed.

End IdenticalMatch.

Lemma identical_matches (s : pystr) : difflib.matches s s = length s.
Proof.
  unfold difflib.matches, difflib.get_matching_blocks.
  replace (2 * length s + 1) with (S (2 * length s)) by lia.
  cbn [difflib.match_queue].
  rewrite (find_longest_match_identical s 0 (length s)) by lia.
  rewrite Nat.sub_0_r.
  destruct (length s) as [|n] eqn:Hlen; [reflexivity|].
  cbn [Nat.eqb].
  rewrite (proj2 (Nat.ltb_ge (0 + S n) (S n))) by lia.
  cbn [andb Nat.ltb Nat.leb app].
  destruct (2 * S n) as [|fuel]; cbn [difflib.match_queue].
  - unfold difflib.collapse. simpl. lia.
  - unfold difflib.collapse. simpl. lia.
Qed.

(* ===================================================================== *)
(** * binary64: the arithmetic of [_calculate_ratio] *)
(* ===================================================================== *)

Section Binary64.

Lemma binary_round_aux_canonical (m : positive) (e : Z) :
  digits2_pos m = 53%positive -> (-1074 <= e <= 971)%Z ->
  binary_round_aux 53 1024 false (Zpos m) e loc_Exact = S754_finite false m e.
Proof.
  intros Hd He. unfold binary_round_aux, shr_fexp. simpl Zdigits2. rewrite Hd.
  assert (Hf : fexp 53 1024 (53 + e) = e).
  { unfold fexp, emin. lia. }
  rewrite Hf, Z.sub_diag. simpl. rewrite Hd, Hf, Z.sub_diag. simpl.
  destruct (Z.leb_spec e (1024 - 53)); [done|lia].
Qed.

Lemma digits2_pos_iter (p k : positive) :
  digits2_pos (Pos.iter xO p k) = (digits2_pos p + k)%positive.
Proof.
  induction k as [|k IH] using Pos.peano_ind.
  - simpl. lia.
  - rewrite Pos.iter_succ. simpl. rewrite IH. lia.
Qed.

Lemma mantissa53_digits (p : positive) :
  (digits2_pos p <= 53)%positive -> digits2_pos (mantissa53 p) = 53%positive.
Proof.
  intros Hd. unfold mantissa53.
  destruct (53 - Z.pos (digits2_pos p))%Z as [|k|k] eqn:Hk; try lia.
  rewrite digits2_pos_iter. lia.
Qed.

Lemma of_int_exact (p : positive) :
  (digits2_pos p <= 53)%positive ->
  Float.of_int (Zpos p)
  = S754_finite false (mantissa53 p) (Zpos (digits2_pos p) - 53).
Proof.
  intros Hd. unfold Float.of_int, binary_normalize, binary_round, shl_align.
  unfold Float.prec, Float.emax.
  assert (Hf : fexp 53 1024 (Zpos (digits2_pos p) + 0)
               = (Zpos (digits2_pos p) - 53)%Z).
  { unfold fexp, emin. lia. }
  rewrite Hf. unfold mantissa53.
  destruct (Z.pos (digits2_pos p) - 53 - 0)%Z as [|k|k] eqn:Hk; try lia.
  - replace (53 - Z.pos (digits2_pos p))%Z with 0%Z by lia.
    replace (Z.pos (digits2_pos p) - 53)%Z with 0%Z by lia.
    apply binary_round_aux_canonical; [lia|lia].
  - replace (53 - Z.pos (digits2_pos p))%Z with (Zpos k) by lia.
    apply binary_round_aux_canonical; [|lia].
    rewrite digits2_pos_iter. lia.
Qed.

Lemma of_int_double (p : positive) :
  (digits2_pos p <= 53)%positive ->
  Float.of_int (Zpos p~0)
  = S754_finite false (mantissa53 p) (Zpos (digits2_pos p) - 53 + 1).
Proof.
  intros Hd.
  destruct (decide (digits2_pos p = 53%positive)) as [H53|Hlt].
  - unfold Float.of_int, binary_normalize, binary_round, shl_align.
    unfold Float.prec, Float.emax. simpl digits2_pos. rewrite H53.
    unfold mantissa53. rewrite H53. simpl.
    unfold binary_round_aux, shr_fexp. simpl. rewrite H53. simpl.
    rewrite H53. simpl. reflexivity.
  - rewrite of_int_exact by (simpl; lia).
    simpl digits2_pos. f_equal; [|lia].
    unfold mantissa53. simpl digits2_pos.
    destruct (53 - Z.pos (Pos.succ (digits2_pos p)))%Z as [|k|k] eqn:Hk; try lia.
    + replace (53 - Z.pos (digits2_pos p))%Z with 1%Z by lia. reflexivity.
    + replace (53 - Z.pos (digits2_pos p))%Z with (Zpos (Pos.succ k)) by lia.
      by rewrite Pos.iter_succ_r.
Qed.

Lemma mul_two (m : positive) (e : Z) :
  digits2_pos m = 53%positive -> (-1074 <= e <= 900)%Z ->
  Float.mul Float.lit_2_0 (S754_finite false m e) = S754_finite false m (e + 1).
Proof.
  intros Hd He. unfold Float.mul, Float.lit_2_0, SFmul, Float.prec, Float.emax.
  unfold binary_round_aux, shr_fexp. cbn [xorb].
  change (Z.pos (4503599627370496 * m)) with (Z.pos (Pos.iter xO m 52)).
  cbn [Zdigits2]. rewrite digits2_pos_iter, Hd.
  assert (Hf : fexp 53 1024 (Z.pos (53 + 52) + (-51 + e)) = (e + 1)%Z).
  { unfold fexp, emin. lia. }
  rewrite Hf. replace (e + 1 - (-51 + e))%Z with 52%Z by lia.
  simpl. rewrite Hd.
  assert (Hf' : fexp 53 1024 (53 + (-51 + e + 52)) = (-51 + e + 52)%Z).
  { unfold fexp, emin. lia. }
  rewrite Hf', Z.sub_diag. simpl.
  destruct (Z.leb_spec (-51 + e + 52) (1024 - 53)); [f_equal; lia|lia].
Qed.

Lemma div_self (m : positive) (e : Z) :
  Float.div (S754_finite false m e) (S754_finite false m e) = Float.lit_1_0.
Proof.
  unfold Float.div, SFdiv, SFdiv_core_binary, Float.prec, Float.emax.
  cbn [Zdigits2 xorb]. rewrite !Z.sub_diag.
  change (Z.min (fexp 53 1024 0) 0) with (-53)%Z.
  change (0 - -53)%Z with 53%Z. cbv iota beta.
  assert (Hdiv : Z.div_eucl (Z.shiftl (Z.pos m) 53) (Z.pos m)
                 = (9007199254740992%Z, 0%Z)).
  { rewrite Z.shiftl_mul_pow2 by lia.
    pose proof (Z.div_eucl_eq (Z.pos m * 2 ^ 53) (Z.pos m) ltac:(lia)) as Heq.
    pose proof (Z.mod_pos_bound (Z.pos m * 2 ^ 53) (Z.pos m) ltac:(lia)) as Hb.
    unfold Z.modulo in Hb.
    destruct (Z.div_eucl (Z.pos m * 2 ^ 53) (Z.pos m)) as [q r].
    change (2 ^ 53)%Z with 9007199254740992%Z in *.
    assert (q = 9007199254740992%Z) by nia. subst q. f_equal. lia. }
  rewrite Hdiv.
  assert (Hloc : new_location (Z.pos m) 0 = loc_Exact).
  { unfold new_location. by destruct (Z.even (Z.pos m)). }
  rewrite Hloc. reflexivity.
Qed.

Lemma digits2_pos_size (p : positive) : digits2_pos p = Pos.size p.
Proof. induction p as [p IH|p IH|]; simpl; by rewrite ?IH. Qed.

Lemma digits2_pos_bound (p : positive) :
  (Z.pos p < 2 ^ 53)%Z -> (digits2_pos p <= 53)%positive.
Proof.
  intros Hp. rewrite digits2_pos_size.
  destruct (Pos.leb_spec (Pos.size p) 53) as [|Hbig]; [done|].
  pose proof (Pos.size_le p) as Hsize.
  apply Pos2Z.pos_le_pos in Hsize. rewrite Pos2Z.inj_pow in Hsize.
  pose proof (Z.pow_le_mono_r 2 54 (Z.pos (Pos.size p)) ltac:(lia) ltac:(lia))
    as Hpow.
  change (2 ^ 53)%Z with 9007199254740992%Z in Hp.
  change (2 ^ 54)%Z with 18014398509481984%Z in Hpow.
  lia.
Qed.

(** A text as long as the two compared texts together are matched: the
    ratio is exactly 1.0. *)
Lemma calculate_ratio_all_matched (n : nat) :
  0 < n -> (Z.of_nat n < 2 ^ 53)%Z ->
  difflib._calculate_ratio n (n + n) = Float.lit_1_0.
Proof.
  intros Hpos Hbound. unfold difflib._calculate_ratio.
  destruct (Nat.eqb_spec (n + n) 0) as [?|_]; [lia|].
  destruct (Z.of_nat n) as [|p|p] eqn:Hn; try lia.
  replace (Z.of_nat (n + n)) with (Z.pos p~0) by lia.
  pose proof (digits2_pos_bound p Hbound) as Hd.
  rewrite of_int_exact, of_int_double by done.
  rewrite mul_two; [apply div_self|by apply mantissa53_digits|lia].
Qed.

(** No match at all: the ratio does not exceed any positive threshold. *)
Lemma calculate_ratio_none_matched (length : nat) :
  length <> 0 ->
  Float.gtb (difflib._calculate_ratio 0 length) Float.lit_0_4 = false.
Proof.
  intros Hlen. unfold difflib._calculate_ratio.
  destruct (Nat.eqb_spec length 0) as [?|_]; [done|].
  change (Float.mul Float.lit_2_0 (Float.of_int (Z.of_nat 0)))
    with (S754_zero false).
  by destruct (Float.of_int (Z.of_nat length)) as [[]|[]| |[]].
Qed.

End Binary64.

(* ===================================================================== *)
(** * QuestionSimilarityChecker.is_similar *)
(* ===================================================================== *)

Section IsSimilar.
Import QuestionSimilarityChecker.

Lemma ratio_identical (s : pystr) :
  (Z.of_nat (length s) < 2 ^ 53)%Z -> difflib.ratio s s = Float.lit_1_0.
Proof.
  intros Hbound. unfold difflib.ratio. rewrite identical_matches.
  destruct (length s) as [|n] eqn:Hlen; [reflexivity|].
  apply calculate_ratio_all_matched; lia.
Qed.

Lemma ratio_unrelated (a b : pystr) :
  unrelated a b -> length a + length b <> 0 ->
  Float.gtb (difflib.ratio a b) Float.lit_0_4 = false.
Proof.
  intros Hunrelated Hlen. unfold difflib.ratio.
  rewrite unrelated_matches by done. by apply calculate_ratio_none_matched.
Qed.

Lemma is_similar_counting_first (new_question : pystr) (threshold : spec_float)
    (before : list Question.t) (q : Question.t) (after : list Question.t) :
  Forall (fun q' => Float.gtb (difflib.ratio new_question
                                 (Question.question_text q')) threshold = false)
         before ->
  Float.gtb (difflib.ratio new_question (Question.question_text q)) threshold
  = true ->
  is_similar_counting new_question (before ++ q :: after) threshold
  = (true, S (length before)).
Proof.
  intros Hbefore Hq. induction Hbefore as [|q' before Hq' _ IH]; simpl.
  - by rewrite Hq.
  - by rewrite Hq', IH.
Qed.

Lemma is_similar_counting_none (new_question : pystr) (threshold : spec_float)
    (past_questions : list Question.t) :
  Forall (fun q' => Float.gtb (difflib.ratio new_question
                                 (Question.question_text q')) threshold = false)
         past_questions ->
  is_similar_counting new_question past_questions threshold
  = (false, length past_questions).
Proof.
  intros Hall. induction Hall as [|q' past Hq' _ IH]; simpl; [done|].
  by rewrite Hq', IH.
Qed.

Lemma is_similar_exists (new_question : pystr) (threshold : spec_float)
    (past_questions : list Question.t) :
  is_similar new_question past_questions threshold = true <->
  exists q, q ∈ past_questions /\
            Float.gtb (difflib.ratio new_question (Question.question_text q))
                      threshold = true.
Proof.
  unfold is_similar. induction past_questions as [|q past IH]; simpl.
  - split; [done|]. intros (q & Hin & _). by apply elem_of_nil in Hin.
  - destruct (Float.gtb _ threshold) eqn:Hq; simpl.
    + split; [|done]. intros _. exists q. split; [by left|done].
    + destruct (is_similar_counting new_question past threshold)
        as [found compared] eqn:Hrest. simpl in *. rewrite IH. split.
      * intros (q' & Hin & Hq'). exists q'. split; [by right|done].
      * intros (q' & Hin & Hq'). apply elem_of_cons in Hin as [->|Hin].
        -- congruence.
        -- by exists q'.
Qed.

End IsSimilar.

(** The two examples of the specification. *)
Example is_similar_examples :
  QuestionSimilarityChecker.is_similar (py "Pythonとは何ですか")
    [prior (py "Pythonとは何ですか")] QuestionSimilarityChecker.default_threshold
  = true /\
  QuestionSimilarityChecker.is_similar (py "A completely different sentence")
    [prior (py "Pythonとは何ですか")] QuestionSimilarityChecker.default_threshold
  = false /\
  difflib.matches (py "abcd") (py "bcde") = 3.
Proof. repeat split; vm_compute; reflexivity. Qed.

(** C7: [is_similar] answers [True] exactly when some prior text has a ratio
    strictly above the threshold; it returns at the first such text, having
    compared only the texts up to it, and compares all of them and answers
    [False] when there is none, in particular when there is no prior text.
    With the threshold 0.4, a prior text equal to the candidate gives
    [True] (their ratio is 1.0), and prior texts that share no character
    with the candidate give [False] (their ratios are 0.0). *)
Theorem C7_is_similar
    (new_question : pystr) (past_questions : list Question.t)
    (threshold : spec_float) :
  let exceeds q :=
    Float.gtb (difflib.ratio new_question (Question.question_text q))
              threshold in
  (QuestionSimilarityChecker.is_similar new_question past_questions threshold
   = true <-> exists q, q ∈ past_questions /\ exceeds q = true) /\
  (forall before q after,
     past_questions = before ++ q :: after ->
     Forall (fun q' => exceeds q' = false) before -> exceeds q = true ->
     QuestionSimilarityChecker.is_similar_counting new_question past_questions
       threshold = (true, S (length before))) /\
  (Forall (fun q => exceeds q = false) past_questions ->
   QuestionSimilarityChecker.is_similar_counting new_question past_questions
     threshold = (false, length past_questions)) /\
  QuestionSimilarityChecker.is_similar new_question [] threshold = false /\
  (forall q,
     q ∈ past_questions -> Question.question_text q = new_question ->
     (Z.of_nat (length new_question) < 2 ^ 53)%Z ->
     QuestionSimilarityChecker.is_similar new_question past_questions
       QuestionSimilarityChecker.default_threshold = true) /\
  (Forall (fun q => unrelated new_question (Question.question_text q) /\
                    length new_question + length (Question.question_text q) <> 0)
          past_questions ->
   QuestionSimilarityChecker.is_similar new_question past_questions
     QuestionSimilarityChecker.default_threshold = false).
Proof.
  intros exceeds. split; [apply is_similar_exists|].
  split; [|split; [|split; [done|split]]].
  - intros before q after -> Hbefore Hq.
    by apply is_similar_counting_first.
  - apply is_similar_counting_none.
  - intros q Hin Htext Hbound. apply is_similar_exists. exists q.
    split; [done|]. rewrite Htext, ratio_identical by done. reflexivity.
  - intros Hall. unfold QuestionSimilarityChecker.is_similar.
    rewrite is_similar_counting_none; [done|].
    eapply Forall_impl; [exact Hall|]. intros q [Hunrelated Hlen].
    by apply ratio_unrelated.
Qed.

Lemma C7_is_similar_witness :
  QuestionSimilarityChecker.is_similar (py "Pythonとは何ですか")
    [prior (py "別の問題"); prior (py "Pythonとは何ですか")]
    QuestionSimilarityChecker.default_threshold = true.
Proof.
  apply (proj1 (proj2 (proj2 (proj2 (proj2
           (C7_is_similar (py "Pythonとは何ですか")
              [prior (py "別の問題"); prior (py "Pythonとは何ですか")]
              QuestionSimilarityChecker.default_threshold)))))
           (prior (py "Pythonとは何ですか"))).
  - apply elem_of_cons. right. apply elem_of_cons. by left.
  - reflexivity.
  - vm_compute. reflexivity.
Defined.
